(** * codicefiscale: the Italian fiscal code codec

    A shallow embedding of [codicefiscale.py] (Python 2) and the
    properties of its public functions [isvalid], [control_code],
    [build], [get_birthday] and [get_sex].

    Conventions of the embedding:
    - a Python [str] is a [list ascii] (a byte string; [upper] acts on
      the ASCII letters only, as in the C locale);
    - a Python [int] is a [Z]; [len] is a [nat];
    - a [dict] is a [gmap]; a missing key is [KeyError];
    - a function that can raise returns a [result]: [Ok v] for a normal
      return and [Raise e] for an exception that leaves the function. *)

From Stdlib Require Import ZArith Ascii String List DecimalString Lia.
From stdpp Require Import base gmap strings list.

Local Open Scope Z_scope.

(** ** Exceptions and the error monad *)

Inductive exn : Set :=
  | AssertionError
  | IndexError
  | KeyError
  | ValueError.

Inductive result (A : Type) : Type :=
  | Ok (v : A)
  | Raise (e : exn).
Arguments Ok {A} v.
Arguments Raise {A} e.

#[global] Instance result_ret : MRet result := λ A v, Ok v.
#[global] Instance result_bind : MBind result := λ A B f m,
  match m with
  | Ok v => f v
  | Raise e => Raise e
  end.

(** [assert b] *)
Definition py_assert (b : bool) : result unit :=
  if b then Ok tt else Raise AssertionError.

(** A left-to-right [for] loop that threads an accumulator and stops at
    the first exception. *)
Fixpoint for_each {A B : Type} (body : B → A → result B) (acc : B)
    (l : list A) : result B :=
  match l with
  | [] => Ok acc
  | x :: l' => acc' ← body acc x; for_each body acc' l'
  end.

(** ** Python values and strings *)

Abbreviation str := (list ascii).

(** String literals. *)
Definition lit (s : string) : str := list_ascii_of_string s.

(** The values [isvalid] may be handed: text, or something that is not
    an instance of [basestring]. *)
Inductive pyobject : Type :=
  | PyStr (s : str)
  | PyInt (n : Z)
  | PyBool (b : bool)
  | PyNone.

(** [char in chars] *)
Definition char_in (c : ascii) (chars : str) : bool :=
  existsb (Ascii.eqb c) chars.

Definition ascii_lowercase : str := lit "abcdefghijklmnopqrstuvwxyz".
Definition ascii_uppercase : str := lit "ABCDEFGHIJKLMNOPQRSTUVWXYZ".
Definition digits : str := lit "0123456789".

(** [s.upper()] *)
Definition upper_char (c : ascii) : ascii :=
  if char_in c ascii_lowercase
  then ascii_of_N (N_of_ascii c - 32)
  else c.

Definition upper (s : str) : str := map upper_char s.

(** [s.replace(' ', '')] *)
Definition remove_spaces (s : str) : str :=
  filter (λ c, c ≠ " "%char) s.

(** [l[i]] for an integer index: negative indices count from the end. *)
Definition py_getitem {A : Type} (l : list A) (i : Z) : result A :=
  let n := Z.of_nat (length l) in
  let j := if i <? 0 then i + n else i in
  if (j <? 0) || (n <=? j) then Raise IndexError
  else match l !! Z.to_nat j with
       | Some x => Ok x
       | None => Raise IndexError
       end.

(** [l.index(x)] *)
Fixpoint py_index (l : str) (x : ascii) : result Z :=
  match l with
  | [] => Raise ValueError
  | y :: l' => if Ascii.eqb y x then Ok 0
               else i ← py_index l' x; Ok (i + 1)
  end.

(** [d[k]] *)
Definition dict_get (d : gmap ascii Z) (k : ascii) : result Z :=
  match d !! k with
  | Some v => Ok v
  | None => Raise KeyError
  end.

(** [enumerate(l)] *)
Definition enumerate {A : Type} (l : list A) : list (Z * A) :=
  imap (λ i x, (Z.of_nat i, x)) l.

(** [str(n)]: the decimal numeral of an integer. *)
Definition py_str (n : Z) : str :=
  lit (NilZero.string_of_int (Z.to_int n)).

(** ["%0wd" % n]: sign first, then zeros up to the width [w]. *)
Definition fmt_0d (w : nat) (n : Z) : str :=
  let ds := py_str (Z.abs n) in
  let sign := if n <? 0 then lit "-" else [] in
  sign ++ replicate (w - length sign - length ds)%nat "0"%char ++ ds.

(** [int(s)] for a decimal literal: surrounding blanks are dropped, one
    sign is allowed, and at least one digit must follow. *)
Definition digit_value (c : ascii) : Z :=
  Z.of_N (N_of_ascii c) - 48.

Definition is_digit (c : ascii) : bool := char_in c digits.

Definition is_blank (c : ascii) : bool :=
  char_in c [" "%char; "009"%char; "010"%char; "011"%char; "012"%char;
             "013"%char].

Fixpoint lstrip (s : str) : str :=
  match s with
  | c :: s' => if is_blank c then lstrip s' else s
  | [] => []
  end.

Definition strip (s : str) : str := rev (lstrip (rev (lstrip s))).

Definition py_int_digits (s : str) : result Z :=
  match s with
  | [] => Raise ValueError
  | _ => if forallb is_digit s
         then Ok (foldl (λ acc c, acc * 10 + digit_value c) 0 s)
         else Raise ValueError
  end.

Definition py_int (s : str) : result Z :=
  match strip s with
  | "-"%char :: s' => n ← py_int_digits s'; Ok (- n)
  | "+"%char :: s' => py_int_digits s'
  | s' => py_int_digits s'
  end.

(** ** Module constants *)

Definition __VOWELS : str := lit "AEIOU".

(** [list(set(ascii_uppercase).difference(__VOWELS))]: the order of a
    set is unspecified; the module only tests membership in it. *)
Definition __CONSONANTS : str :=
  filter (λ c, char_in c __VOWELS = false) ascii_uppercase.

Definition MONTHSCODE : str := lit "ABCDEHLMPRST".

(** The compiled regular expression
    [^[A-Z]{6}[0-9LMNPQRSTUV]{2}[ABCDEHLMPRST]{1}[0-9LMNPQRSTUV]{2}[A-Z]{1}[0-9LMNPQRSTUV]{3}[A-Z]{1}$]:
    a sequence of character classes, each with its repeat count. *)
Definition class_AZ : str := ascii_uppercase.
Definition class_digit_omocodia : str := digits ++ lit "LMNPQRSTUV".
Definition class_month : str := lit "ABCDEHLMPRST".

Definition _pattern : list (str * nat) :=
  [ (class_AZ, 6%nat); (class_digit_omocodia, 2%nat); (class_month, 1%nat);
    (class_digit_omocodia, 2%nat); (class_AZ, 1%nat);
    (class_digit_omocodia, 3%nat); (class_AZ, 1%nat) ].

(** Consume exactly [n] characters of the class; the rest is returned. *)
Fixpoint match_repeat (cls : str) (n : nat) (s : str) : option str :=
  match n with
  | O => Some s
  | S n' => match s with
            | c :: s' => if char_in c cls then match_repeat cls n' s' else None
            | [] => None
            end
  end.

Fixpoint match_classes (p : list (str * nat)) (s : str) : option str :=
  match p with
  | [] => Some s
  | (cls, n) :: p' =>
      match match_repeat cls n s with
      | Some s' => match_classes p' s'
      | None => None
      end
  end.

(** [p.match(s) is not None] for a pattern anchored with [^] and [$]:
    [$] matches at the end of the string and also just before a final
    newline. *)
Definition re_match (p : list (str * nat)) (s : str) : bool :=
  match match_classes p s with
  | Some [] => true
  | Some [c] => Ascii.eqb c "010"%char
  | _ => false
  end.

(** ** control_code *)

(** The table built by the two [for idx, char in enumerate(...)] loops
    that store [f idx] under [char]. *)
Definition fill_table (f : Z → result Z) (chars : str)
    (d : gmap ascii Z) : result (gmap ascii Z) :=
  for_each (λ d '(idx, char), v ← f idx; Ok (<[char := v]> d)) d
           (enumerate chars).

Definition values : list Z :=
  [ 1; 0; 5; 7; 9; 13; 15; 17; 19; 21; 2; 4; 18; 20; 11; 3; 6; 8;
    12; 14; 16; 10; 22; 25; 24; 23 ].

Definition control_code (input_string : str) : result ascii :=
  _ ← py_assert (length input_string =? 15)%nat;
  even_controlcode ← fill_table Ok digits ∅;
  even_controlcode ← fill_table Ok ascii_uppercase even_controlcode;
  odd_controlcode ← fill_table (py_getitem values) digits ∅;
  odd_controlcode ← fill_table (py_getitem values) ascii_uppercase
                               odd_controlcode;
  code ← for_each (λ code '(idx, char),
                     if idx mod 2 =? 0
                     then v ← dict_get odd_controlcode char; Ok (code + v)
                     else v ← dict_get even_controlcode char; Ok (code + v))
                  0 (enumerate input_string);
  py_getitem ascii_uppercase (code mod 26).

(** ** isvalid *)

Definition isvalid (code : pyobject) : result bool :=
  match code with
  | PyStr code =>
      if negb (length code =? 16)%nat then Ok false
      else
        let code := upper code in
        if negb (re_match _pattern code) then Ok false
        else
          cc ← control_code (take 15 code);
          last ← py_getitem code 15;
          Ok (Ascii.eqb cc last)
  | _ => Ok false   (* not isinstance(code, basestring) *)
  end.

(** ** Fiscal code calculation *)

(** The [while len(output) < stopat: output += vowels.pop(0)] loop:
    popping from an empty list raises [IndexError]. *)
Fixpoint append_vowels (stopat : nat) (output vowels : str) : result str :=
  if (length output <? stopat)%nat
  then match vowels with
       | [] => Raise IndexError
       | v :: vowels' => append_vowels stopat (output ++ [v]) vowels'
       end
  else Ok output.

Definition __common_triplet (input_string consonants vowels : str)
    : result str :=
  let output := consonants in
  let stopat := if (2 <? length input_string)%nat then 3%nat else 2%nat in
  output ← append_vowels stopat output vowels;
  let output := if (length output =? 2)%nat then output ++ lit "X"
                else output in
  Ok (take 3 output).

Definition __consonants_and_vowels (input_string : str) : str * str :=
  let input_string := remove_spaces (upper input_string) in
  let consonants := filter (λ char, char_in char __CONSONANTS = true)
                           input_string in
  let vowels := filter (λ char, char_in char __VOWELS = true) input_string in
  (consonants, vowels).

Definition __surname_triplet (input_string : str) : result str :=
  let '(consonants, vowels) := __consonants_and_vowels input_string in
  __common_triplet input_string consonants vowels.

Definition __name_triplet (input_string : str) : result str :=
  if bool_decide (input_string = [])
  then Ok (lit "XXX")
  else
    let '(consonants, vowels) := __consonants_and_vowels input_string in
    if (3 <? length consonants)%nat
    then
      c0 ← py_getitem consonants 0;
      c2 ← py_getitem consonants 2;
      c3 ← py_getitem consonants 3;
      Ok [c0; c2; c3]
    else __common_triplet input_string consonants vowels.

(** The three attributes of a [datetime] that [build] reads. *)
Record date : Set := Date { year : Z; month : Z; day : Z }.

Definition build (surname name : str) (birthday : date) (sex : str)
    (municipality : str) : result str :=
  s ← __surname_triplet surname;
  n ← __name_triplet name;
  let output := s ++ n in
  let output := output ++ drop 2 (py_str (year birthday)) in
  m ← py_getitem MONTHSCODE (month birthday - 1);
  let output := output ++ [m] in
  let output :=
    output ++ fmt_0d 2 (if bool_decide (sex = lit "M")
                           && negb (day birthday =? 0)
                        then day birthday
                        else 40 + day birthday) in
  let output := output ++ municipality in
  cc ← control_code output;
  let output := output ++ [cc] in
  ok ← isvalid (PyStr output);
  _ ← py_assert ok;
  Ok output.

(** ** Information from a fiscal code *)

Definition get_birthday (code : str) : result str :=
  ok ← isvalid (PyStr code);
  _ ← py_assert ok;
  day_year_charmap ← fill_table Ok digits ∅;
  day_year_charmap ← fill_table Ok (lit "LMNPQRSTUV") day_year_charmap;
  c9 ← py_getitem code 9;
  d1 ← dict_get day_year_charmap c9;
  c10 ← py_getitem code 10;
  d2 ← dict_get day_year_charmap c10;
  let day := d1 * 10 + d2 in
  let day := if (day <? 32) && negb (day =? 0) then day else day - 40 in
  c8 ← py_getitem code 8;
  i ← py_index MONTHSCODE c8;
  let month := i + 1 in
  c6 ← py_getitem code 6;
  y1 ← dict_get day_year_charmap c6;
  c7 ← py_getitem code 7;
  y2 ← dict_get day_year_charmap c7;
  let year := y1 * 10 + y2 in
  Ok (fmt_0d 2 day ++ lit "-" ++ fmt_0d 2 month ++ lit "-" ++ fmt_0d 2 year).

Definition get_sex (code : str) : result str :=
  ok ← isvalid (PyStr code);
  _ ← py_assert ok;
  n ← py_int (take 2 (drop 9 code));
  Ok (if n <? 32 then lit "M" else lit "F").

(** * Definitions of the statements *)

(** ** Enumerating the characters *)

Definition all_ascii : str := map ascii_of_nat (seq 0 256).

(** ** The tables of [control_code] in closed form *)

(** The characters a fiscal code is made of: digits and upper-case
    letters. *)
Definition is_code_char (c : ascii) : bool :=
  char_in c digits || char_in c ascii_uppercase.

(** The position of a character in an alphabet (0-based). *)
Fixpoint ordinal (c : ascii) (alphabet : str) : Z :=
  match alphabet with
  | [] => 0
  | x :: alphabet' => if Ascii.eqb x c then 0 else 1 + ordinal c alphabet'
  end.

(** The even table: the character's ordinal among the digits, or among
    the letters. *)
Definition even_value (c : ascii) : Z :=
  if char_in c digits then ordinal c digits else ordinal c ascii_uppercase.

(** The odd table: the fixed permutation at the same index. *)
Definition odd_value (c : ascii) : Z :=
  nth (Z.to_nat (even_value c)) values 0.

(** The contribution of the character at 0-based position [idx]. *)
Definition contribution (idx : nat) (c : ascii) : Z :=
  if Nat.even idx then odd_value c else even_value c.

Definition control_sum (s : str) : Z :=
  foldr Z.add 0 (imap contribution s).

(** The upper-case letter at position (sum mod 26) of the alphabet. *)
Definition control_letter (s : str) : ascii :=
  nth (Z.to_nat (control_sum s mod 26)) ascii_uppercase "A"%char.

Definition from_ok {A : Type} (default : A) (r : result A) : A :=
  match r with
  | Ok v => v
  | Raise _ => default
  end.

Definition is_ok {A : Type} (r : result A) : bool :=
  match r with
  | Ok _ => true
  | Raise _ => false
  end.

Definition even_digits_table : gmap ascii Z :=
  from_ok ∅ (fill_table Ok digits ∅).
Definition even_table : gmap ascii Z :=
  from_ok ∅ (fill_table Ok ascii_uppercase even_digits_table).
Definition odd_digits_table : gmap ascii Z :=
  from_ok ∅ (fill_table (py_getitem values) digits ∅).
Definition odd_table : gmap ascii Z :=
  from_ok ∅ (fill_table (py_getitem values) ascii_uppercase odd_digits_table).

Definition option_Z_eqb (a b : option Z) : bool :=
  match a, b with
  | Some x, Some y => x =? y
  | None, None => true
  | _, _ => false
  end.

(** The body of the summing loop of [control_code]. *)
Definition sum_step (code : Z) (p : Z * ascii) : result Z :=
  let '(idx, char) := p in
  if idx mod 2 =? 0
  then v ← dict_get odd_table char; Ok (code + v)
  else v ← dict_get even_table char; Ok (code + v).

(** ** The positional pattern *)

(** The class of each 0-based position, as in the table of fields:
    six letters, two year characters, the month letter, two day
    characters, the municipality (a letter and three digit characters)
    and the control letter. *)
Definition position_class (i : nat) : str :=
  if (i <? 6)%nat then class_AZ
  else if (i <? 8)%nat then class_digit_omocodia
  else if (i =? 8)%nat then class_month
  else if (i <? 11)%nat then class_digit_omocodia
  else if (i =? 11)%nat then class_AZ
  else if (i <? 15)%nat then class_digit_omocodia
  else class_AZ.

Fixpoint matches_from (i : nat) (s : str) : bool :=
  match s with
  | [] => true
  | c :: s' => char_in c (position_class i) && matches_from (S i) s'
  end.

(** The verdict of [isvalid] in words: text of length 16 whose
    upper-cased form has every position in its class and its last
    character equal to the control letter of the first 15. *)
Definition isvalid_spec (v : pyobject) : bool :=
  match v with
  | PyStr s =>
      (length s =? 16)%nat
      && matches_from 0 (upper s)
      && match upper s !! 15%nat with
         | Some last => Ascii.eqb last (control_letter (take 15 (upper s)))
         | None => false
         end
  | _ => false
  end.

(** The part of [isvalid] that follows the length check, on an
    upper-cased string of 16 characters. *)
Definition checks (code : str) : result bool :=
  if negb (re_match _pattern code) then Ok false
  else
    cc ← control_code (take 15 code);
    last ← py_getitem code 15;
    Ok (Ascii.eqb cc last).

(** ** Triplets *)

Definition consonants_of (s : str) : str := (__consonants_and_vowels s).1.
Definition vowels_of (s : str) : str := (__consonants_and_vowels s).2.

(** The letters a triplet is drawn from. *)
Definition is_letter (c : ascii) : bool :=
  char_in c ascii_lowercase || char_in c ascii_uppercase.

Definition letter_count (s : str) : nat :=
  length (filter (λ c, is_letter c = true) s).

(** The number of characters the loop of [__common_triplet] insists on. *)
Definition letters_needed (s : str) : nat :=
  if (2 <? length s)%nat then 3%nat else 2%nat.

Definition is_AZ (c : ascii) : Prop := char_in c class_AZ = true.

Definition letter_split_check (c : ascii) : bool :=
  let u := upper_char c in
  let k := char_in u __CONSONANTS in
  let v := char_in u __VOWELS in
  if Ascii.eqb u " " then negb (is_letter c)
  else Bool.eqb (xorb k v) (is_letter c)
       && negb (k && v)
       && implb (k || v) (char_in u class_AZ).

(** A string of three upper-case letters. *)
Definition is_triplet (t : str) : Prop :=
  length t = 3%nat ∧ Forall is_AZ t.

(** ** Decoding the birth date *)

Definition omocodia_letters : str := lit "LMNPQRSTUV".

(** The omocodia map: a digit stands for itself, and the letters
    L, M, N, P, Q, R, S, T, U, V stand for 0 to 9. *)
Definition omocodia_value (c : ascii) : option Z :=
  if char_in c digits then Some (ordinal c digits)
  else if char_in c omocodia_letters then Some (ordinal c omocodia_letters)
  else None.

(** The letter alias of a digit. *)
Definition omocodia_letter (d : ascii) : option ascii :=
  if char_in d digits then omocodia_letters !! Z.to_nat (ordinal d digits)
  else None.

Definition day_year_charmap : gmap ascii Z :=
  from_ok ∅ (fill_table Ok omocodia_letters even_digits_table).

Definition result_Z_eqb (a b : result Z) : bool :=
  match a, b with
  | Ok x, Ok y => x =? y
  | Raise _, Raise _ => true
  | _, _ => false
  end.

(** The string [get_birthday] formats from the decoded characters. *)
Definition render_birthday (d1 d2 i y1 y2 : Z) : str :=
  let day := d1 * 10 + d2 in
  let day := if (day <? 32) && negb (day =? 0) then day else day - 40 in
  fmt_0d 2 day ++ lit "-" ++ fmt_0d 2 (i + 1) ++ lit "-"
    ++ fmt_0d 2 (y1 * 10 + y2).

(** The year, month and day characters (positions 7 to 11). *)
Definition date_field (code : str) : str := take 5 (drop 6 code).

(** Two characters that are equal, or a digit and its letter alias. *)
Definition same_or_alias (a b : ascii) : bool :=
  Ascii.eqb a b
  || match omocodia_letter a with Some l => Ascii.eqb l b | None => false end
  || match omocodia_letter b with Some l => Ascii.eqb l a | None => false end.

Definition alias_position (i : nat) : bool :=
  (i =? 6)%nat || (i =? 7)%nat || (i =? 9)%nat || (i =? 10)%nat.

(** Two codes that agree on their first 15 characters, except that at
    the year and day positions one may hold a digit where the other
    holds its letter alias; the control characters are left free. *)
Fixpoint variants_from (i : nat) (c1 c2 : str) : bool :=
  match c1, c2 with
  | [], [] => true
  | a :: c1', b :: c2' =>
      (if (i =? 15)%nat then true
       else if alias_position i then same_or_alias a b
       else Ascii.eqb a b)
      && variants_from (S i) c1' c2'
  | _, _ => false
  end.

Definition omocodia_variants (c1 c2 : str) : bool := variants_from 0 c1 c2.

(** ** Building a code *)

(** The number [build] formats into the day field. *)
Definition day_code (sex : str) (d : Z) : Z :=
  if bool_decide (sex = lit "M") && negb (d =? 0) then d else 40 + d.

Definition two_digits_of (s : str) (n : Z) : bool :=
  match s with
  | [a; b] => char_in a digits && char_in b digits
              && (ordinal a digits * 10 + ordinal b digits =? n)
  | _ => false
  end.

(** The municipality codes [build] can complete: an upper-case letter
    followed by three characters that are digits or omocodia letters. *)
Definition municipality_pattern : list (str * nat) :=
  [ (class_AZ, 1%nat); (class_digit_omocodia, 3%nat) ].

(** The person data on which [build] completes. *)
Definition encodable (input_string : str) : Prop :=
  (letters_needed input_string ≤ letter_count input_string)%nat.

Definition rocca_birthday : date := Date 1983 11 18.

(** * Properties *)

(** ** The examples of the docstrings *)

Example isvalid_doc_1 : isvalid (PyStr (lit "RCCMNL83S18D969H")) = Ok true.
Proof. vm_compute. reflexivity. Qed.

Example isvalid_doc_2 : isvalid (PyStr (lit "RCCMNL83S18D969")) = Ok false.
Proof. vm_compute. reflexivity. Qed.

Example control_code_doc : control_code (lit "RCCMNL83S18D969") = Ok "H"%char.
Proof. vm_compute. reflexivity. Qed.

Example build_doc :
  build (lit "Rocca") (lit "Emanuele") (Date 1983 11 18) (lit "M") (lit "D969")
  = Ok (lit "RCCMNL83S18D969H").
Proof. vm_compute. reflexivity. Qed.

Example get_birthday_doc :
  get_birthday (lit "RCCMNL83S18D969H") = Ok (lit "18-11-83").
Proof. vm_compute. reflexivity. Qed.

Example get_sex_doc_1 : get_sex (lit "RCCMNL83S18D969H") = Ok (lit "M").
Proof. vm_compute. reflexivity. Qed.

Example get_sex_doc_2 : get_sex (lit "CNTCHR83T41D969D") = Ok (lit "F").
Proof. vm_compute. reflexivity. Qed.

(** ** Checking a decidable property on every character or on a range *)

Lemma forall_ascii (P : ascii → bool) :
  forallb P all_ascii = true → ∀ c, P c = true.
Proof.
  intros H c. rewrite List.forallb_forall in H. apply H.
  rewrite <- (ascii_nat_embedding c). apply in_map, in_seq.
  pose proof (nat_ascii_bounded c). lia.
Qed.

Lemma forall_range (P : Z → bool) (lo n : Z) :
  forallb P (seqZ lo n) = true →
  ∀ z, lo ≤ z < lo + n → P z = true.
Proof.
  intros H z Hz. rewrite List.forallb_forall in H. apply H.
  apply list_elem_of_In, elem_of_seqZ. lia.
Qed.

Ltac by_all_ascii c :=
  revert c;
  match goal with
  | |- ∀ c, @?P c = true => apply (forall_ascii P)
  end;
  vm_compute; reflexivity.

(** ** The control code *)

Lemma from_ok_eq {A : Type} (default : A) (r : result A) :
  is_ok r = true → r = Ok (from_ok default r).
Proof. destruct r; [reflexivity | discriminate]. Qed.

Lemma even_digits_table_eq : fill_table Ok digits ∅ = Ok even_digits_table.
Proof. apply from_ok_eq. vm_compute. reflexivity. Qed.

Lemma even_table_eq :
  fill_table Ok ascii_uppercase even_digits_table = Ok even_table.
Proof. apply from_ok_eq. vm_compute. reflexivity. Qed.

Lemma odd_digits_table_eq :
  fill_table (py_getitem values) digits ∅ = Ok odd_digits_table.
Proof. apply from_ok_eq. vm_compute. reflexivity. Qed.

Lemma odd_table_eq :
  fill_table (py_getitem values) ascii_uppercase odd_digits_table
  = Ok odd_table.
Proof. apply from_ok_eq. vm_compute. reflexivity. Qed.

Lemma option_Z_eqb_eq a b : option_Z_eqb a b = true → a = b.
Proof.
  destruct a, b; simpl; try discriminate; try reflexivity.
  intros H. apply Z.eqb_eq in H. congruence.
Qed.

Lemma even_table_lookup c :
  even_table !! c = if is_code_char c then Some (even_value c) else None.
Proof.
  apply option_Z_eqb_eq. by_all_ascii c.
Qed.

Lemma odd_table_lookup c :
  odd_table !! c = if is_code_char c then Some (odd_value c) else None.
Proof.
  apply option_Z_eqb_eq. by_all_ascii c.
Qed.

Lemma control_code_unfold s :
  control_code s =
    (_ ← py_assert (length s =? 15)%nat;
     code ← for_each sum_step 0 (enumerate s);
     py_getitem ascii_uppercase (code mod 26)).
Proof.
  unfold control_code.
  destruct (py_assert (length s =? 15)%nat); [|reflexivity].
  cbn [mbind result_bind].
  rewrite even_digits_table_eq. cbn [mbind result_bind].
  rewrite even_table_eq. cbn [mbind result_bind].
  rewrite odd_digits_table_eq. cbn [mbind result_bind].
  rewrite odd_table_eq. cbn [mbind result_bind].
  reflexivity.
Qed.

Lemma sum_loop (s : str) : ∀ (k : nat) (acc : Z),
  Forall (λ c, is_code_char c = true) s →
  for_each sum_step acc (imap (λ i x, (Z.of_nat (k + i), x)) s)
  = Ok (acc + foldr Z.add 0 (imap (λ i, contribution (k + i)) s)).
Proof.
  induction s as [|c s IH]; intros k acc Hs.
  - simpl. f_equal. lia.
  - inversion Hs as [|? ? Hc Hs']; subst.
    cbn [imap for_each foldr].
    assert (Hstep : sum_step acc (Z.of_nat (k + 0), c)
                    = Ok (acc + contribution (k + 0) c)).
    { unfold sum_step, contribution, dict_get.
      rewrite odd_table_lookup, even_table_lookup, Hc.
      replace (Z.of_nat (k + 0) mod 2 =? 0) with (Nat.even (k + 0)).
      - destruct (Nat.even (k + 0)); reflexivity.
      - rewrite Nat.add_0_r. destruct (Nat.even k) eqn:E.
        + apply Nat.even_spec in E. destruct E as [m ->].
          symmetry. apply Z.eqb_eq.
          rewrite Nat2Z.inj_mul, Z.mul_comm. apply Z_mod_mult.
        + symmetry. apply Z.eqb_neq.
          assert (Ho : Nat.odd k = true)
            by (rewrite <- Nat.negb_even, E; reflexivity).
          apply Nat.odd_spec in Ho. destruct Ho as [m ->].
          rewrite Nat2Z.inj_add, Nat2Z.inj_mul.
          rewrite Z.add_comm, Z.mul_comm, Z_mod_plus_full. discriminate. }
    rewrite Hstep. cbn [mbind result_bind].
    rewrite (imap_ext _ (λ i x, (Z.of_nat (S k + i), x)) s)
      by (intros; simpl; do 2 f_equal; lia).
    rewrite (imap_ext _ (λ i, contribution (S k + i)) s)
      by (intros; simpl; f_equal; lia).
    rewrite (IH (S k)) by assumption.
    f_equal. lia.
Qed.

Lemma control_sum_nonneg_aux (s : str) : ∀ k,
  0 ≤ foldr Z.add 0 (imap (λ i, contribution (k + i)) s).
Proof.
  assert (Hc : ∀ c, (0 <=? even_value c) && (0 <=? odd_value c) = true)
    by (intros c; by_all_ascii c).
  induction s as [|c s IH]; intros k; cbn [imap foldr]; [lia|].
  specialize (Hc c). apply andb_true_iff in Hc as [H1 H2].
  apply Z.leb_le in H1, H2.
  assert (0 ≤ contribution (k + 0) c)
    by (unfold contribution; destruct (Nat.even _); assumption).
  pose proof (IH (S k)) as IH'.
  rewrite (imap_ext _ (λ i, contribution (S k + i)) s)
    by (intros; simpl; f_equal; lia).
  lia.
Qed.

Lemma alphabet_getitem (n : Z) :
  0 ≤ n < 26 →
  py_getitem ascii_uppercase n = Ok (nth (Z.to_nat n) ascii_uppercase "A"%char)
  ∧ char_in (nth (Z.to_nat n) ascii_uppercase "A"%char) class_AZ = true.
Proof.
  intros Hn.
  pose (P := λ n, match py_getitem ascii_uppercase n with
                  | Ok c => Ascii.eqb c (nth (Z.to_nat n) ascii_uppercase "A"%char)
                            && char_in c class_AZ
                  | Raise _ => false
                  end).
  assert (H : P n = true).
  { apply (forall_range P 0 26); [vm_compute; reflexivity | lia]. }
  unfold P in H. destruct (py_getitem ascii_uppercase n) as [c|]; [|discriminate].
  apply andb_true_iff in H as [H1 H2]. apply Ascii.eqb_eq in H1. subst c.
  split; [reflexivity | assumption].
Qed.

Lemma control_code_correct (s : str) :
  length s = 15%nat →
  Forall (λ c, is_code_char c = true) s →
  control_code s = Ok (control_letter s)
  ∧ char_in (control_letter s) class_AZ = true.
Proof.
  intros Hlen Hs. rewrite control_code_unfold, Hlen.
  cbn [Nat.eqb py_assert mbind result_bind].
  unfold enumerate.
  pose proof (sum_loop s 0 0 Hs) as Hloop. cbn [Nat.add] in Hloop.
  rewrite Hloop. cbn [mbind result_bind]. rewrite Z.add_0_l.
  unfold control_letter, control_sum.
  apply alphabet_getitem, Z.mod_pos_bound. lia.
Qed.

(** C2. On every 15-character input made of digits and upper-case
    letters, [control_code] returns the letter of the alphabet at
    position (sum mod 26), where the sum adds, for each 0-based
    position, the odd-table value of the character at an even position
    and the even-table value at an odd position; on "RCCMNL83S18D969" it
    returns 'H'. *)
Theorem control_code_weighted_sum :
  (∀ s : str,
     length s = 15%nat →
     Forall (λ c, is_code_char c = true) s →
     control_code s = Ok (control_letter s))
  ∧ control_code (lit "RCCMNL83S18D969") = Ok "H"%char.
Proof.
  split.
  - intros s Hlen Hs. apply control_code_correct; assumption.
  - vm_compute. reflexivity.
Qed.

Lemma control_code_weighted_sum_witness :
  length (lit "RCCMNL83S18D969") = 15%nat
  ∧ Forall (λ c, is_code_char c = true) (lit "RCCMNL83S18D969")
  ∧ control_code (lit "RCCMNL83S18D969")
    = Ok (control_letter (lit "RCCMNL83S18D969")).
Proof.
  assert (Hlen : length (lit "RCCMNL83S18D969") = 15%nat) by reflexivity.
  assert (Hs : Forall (λ c, is_code_char c = true) (lit "RCCMNL83S18D969"))
    by (repeat constructor).
  split; [exact Hlen | split; [exact Hs |]].
  exact (proj1 control_code_weighted_sum _ Hlen Hs).
Defined.

(** ** Upper-casing *)

Lemma upper_char_idem c : upper_char (upper_char c) = upper_char c.
Proof. apply Ascii.eqb_eq. by_all_ascii c. Qed.

Lemma upper_idem s : upper (upper s) = upper s.
Proof.
  unfold upper. rewrite map_map. apply map_ext. intros c. apply upper_char_idem.
Qed.

Lemma length_upper s : length (upper s) = length s.
Proof. apply length_map. Qed.

Lemma upper_char_code_char c : is_code_char c = true → upper_char c = c.
Proof.
  intros H. apply Ascii.eqb_eq. revert H.
  assert (G : implb (is_code_char c) (Ascii.eqb (upper_char c) c) = true)
    by by_all_ascii c.
  destruct (is_code_char c); [intros _; exact G | discriminate].
Qed.

Lemma upper_code_chars s :
  Forall (λ c, is_code_char c = true) s → upper s = s.
Proof.
  induction 1 as [|c s Hc _ IH]; [reflexivity|].
  unfold upper in *. cbn [map]. rewrite IH, upper_char_code_char; auto.
Qed.

(** ** Validation *)

Lemma length_16_inv (s : str) :
  length s = 16%nat →
  ∃ c0 c1 c2 c3 c4 c5 c6 c7 c8 c9 c10 c11 c12 c13 c14 c15,
    s = [c0; c1; c2; c3; c4; c5; c6; c7; c8; c9; c10; c11; c12; c13; c14; c15].
Proof.
  intros H.
  do 16 (destruct s as [|? s]; [discriminate H|]).
  destruct s; [|discriminate H].
  repeat eexists.
Qed.

Ltac class_step c :=
  match goal with
  | |- context [char_in c ?cls] =>
      destruct (char_in c cls); cbn [andb]; [|reflexivity]
  end.

Lemma re_match_16 c0 c1 c2 c3 c4 c5 c6 c7 c8 c9 c10 c11 c12 c13 c14 c15 :
  re_match _pattern
    [c0; c1; c2; c3; c4; c5; c6; c7; c8; c9; c10; c11; c12; c13; c14; c15]
  = matches_from 0
    [c0; c1; c2; c3; c4; c5; c6; c7; c8; c9; c10; c11; c12; c13; c14; c15].
Proof.
  unfold re_match, _pattern.
  cbn [matches_from].
  cbv [position_class Nat.ltb Nat.leb Nat.eqb].
  cbn [match_classes match_repeat].
  class_step c0. class_step c1. class_step c2. class_step c3.
  class_step c4. class_step c5. class_step c6. class_step c7.
  class_step c8. class_step c9. class_step c10. class_step c11.
  class_step c12. class_step c13. class_step c14. class_step c15.
  reflexivity.
Qed.

Lemma class_AZ_code_char c :
  char_in c class_AZ = true → is_code_char c = true.
Proof.
  assert (G : implb (char_in c class_AZ) (is_code_char c) = true)
    by by_all_ascii c.
  destruct (char_in c class_AZ); [intros _; exact G | discriminate].
Qed.

Lemma class_digit_omocodia_code_char c :
  char_in c class_digit_omocodia = true → is_code_char c = true.
Proof.
  assert (G : implb (char_in c class_digit_omocodia) (is_code_char c) = true)
    by by_all_ascii c.
  destruct (char_in c class_digit_omocodia); [intros _; exact G | discriminate].
Qed.

Lemma class_month_code_char c :
  char_in c class_month = true → is_code_char c = true.
Proof.
  assert (G : implb (char_in c class_month) (is_code_char c) = true)
    by by_all_ascii c.
  destruct (char_in c class_month); [intros _; exact G | discriminate].
Qed.

Lemma position_class_code_char i c :
  char_in c (position_class i) = true → is_code_char c = true.
Proof.
  unfold position_class.
  repeat match goal with |- context [if ?b then _ else _] => destruct b end;
    auto using class_AZ_code_char, class_digit_omocodia_code_char,
               class_month_code_char.
Qed.

Lemma matches_from_code_chars s : ∀ i,
  matches_from i s = true → Forall (λ c, is_code_char c = true) s.
Proof.
  induction s as [|c s IH]; intros i H; [constructor|].
  cbn [matches_from] in H. apply andb_true_iff in H as [H1 H2].
  constructor; [eapply position_class_code_char | eapply IH]; eassumption.
Qed.

Lemma isvalid_unfold s :
  isvalid (PyStr s)
  = if negb (length s =? 16)%nat then Ok false else checks (upper s).
Proof. reflexivity. Qed.

Lemma ascii_eqb_sym (a b : ascii) : Ascii.eqb a b = Ascii.eqb b a.
Proof.
  destruct (Ascii.eqb_spec a b), (Ascii.eqb_spec b a); congruence.
Qed.

Lemma checks_16 (u : str) :
  length u = 16%nat →
  checks u = Ok (matches_from 0 u
                 && match u !! 15%nat with
                    | Some last => Ascii.eqb last (control_letter (take 15 u))
                    | None => false
                    end).
Proof.
  intros Hlen.
  destruct (length_16_inv u Hlen)
    as (c0 & c1 & c2 & c3 & c4 & c5 & c6 & c7 & c8 & c9 & c10 & c11 & c12
        & c13 & c14 & c15 & ->).
  unfold checks. rewrite re_match_16.
  destruct (matches_from 0 _) eqn:Hm; cbn [negb andb]; [|reflexivity].
  apply matches_from_code_chars in Hm.
  assert (H15 : Forall (λ c, is_code_char c = true)
                  (take 15 [c0; c1; c2; c3; c4; c5; c6; c7; c8; c9; c10; c11;
                            c12; c13; c14; c15])).
  { apply Forall_take. exact Hm. }
  destruct (control_code_correct
              (take 15 [c0; c1; c2; c3; c4; c5; c6; c7; c8; c9; c10; c11;
                        c12; c13; c14; c15]) eq_refl H15) as [-> _].
  cbn [mbind result_bind].
  change (py_getitem [c0; c1; c2; c3; c4; c5; c6; c7; c8; c9; c10; c11;
                      c12; c13; c14; c15] 15) with (Ok c15).
  cbn [mbind result_bind lookup list_lookup].
  rewrite ascii_eqb_sym. reflexivity.
Qed.

Lemma isvalid_verdict (v : pyobject) : isvalid v = Ok (isvalid_spec v).
Proof.
  destruct v as [s | | |]; try reflexivity.
  rewrite isvalid_unfold. unfold isvalid_spec.
  destruct (length s =? 16)%nat eqn:E; cbn [negb andb]; [|reflexivity].
  apply Nat.eqb_eq in E.
  rewrite checks_16 by (rewrite length_upper; exact E).
  reflexivity.
Qed.

(** C3. [isvalid] never raises: on every value it returns a boolean,
    which is false for a value that is not text, false for a text whose
    length is not 16, false when a position of the upper-cased text is
    outside its character class, false when the last character is not
    the control letter of the first 15, and true otherwise. *)
Theorem isvalid_never_raises (v : pyobject) :
  isvalid v = Ok (isvalid_spec v).
Proof.
  destruct v as [s | n | b |].
  - rewrite isvalid_unfold. unfold isvalid_spec.
    destruct (Nat.eqb_spec (length s) 16) as [E|E]; cbn [negb andb].
    + rewrite checks_16 by (rewrite length_upper; exact E). reflexivity.
    + reflexivity.
  - reflexivity.
  - reflexivity.
  - reflexivity.
Qed.

(** C9. [isvalid] gives the same answer on a text and on its upper-cased
    form, and accepts the lower-case rendering "rccmnl83s18d969h". *)
Theorem isvalid_case_insensitive :
  (∀ s : str, isvalid (PyStr s) = isvalid (PyStr (upper s)))
  ∧ isvalid (PyStr (lit "rccmnl83s18d969h")) = Ok true.
Proof.
  split.
  - intros s. rewrite !isvalid_unfold, length_upper, upper_idem. reflexivity.
  - vm_compute. reflexivity.
Qed.

(** ** Indexing *)

Lemma py_getitem_lookup {A : Type} (l : list A) (i : nat) (x : A) :
  l !! i = Some x → py_getitem l (Z.of_nat i) = Ok x.
Proof.
  intros H. pose proof (lookup_lt_Some _ _ _ H) as Hlt.
  unfold py_getitem.
  destruct (Z.ltb_spec (Z.of_nat i) 0); [lia|].
  destruct (Z.ltb_spec (Z.of_nat i) 0); [lia|].
  destruct (Z.leb_spec (Z.of_nat (length l)) (Z.of_nat i)); [lia|].
  cbn [orb]. rewrite Nat2Z.id, H. reflexivity.
Qed.

(** ** The surname and name triplets *)

Lemma surname_triplet_unfold s :
  __surname_triplet s = __common_triplet s (consonants_of s) (vowels_of s).
Proof. reflexivity. Qed.

Lemma name_triplet_unfold s :
  __name_triplet s =
    if bool_decide (s = []) then Ok (lit "XXX")
    else if (3 <? length (consonants_of s))%nat
         then c0 ← py_getitem (consonants_of s) 0;
              c2 ← py_getitem (consonants_of s) 2;
              c3 ← py_getitem (consonants_of s) 3;
              Ok [c0; c2; c3]
         else __common_triplet s (consonants_of s) (vowels_of s).
Proof. reflexivity. Qed.

(** C6. The given-name triplet is "XXX" for the empty name; otherwise,
    with more than three consonants, it is made of the 1st, 3rd and 4th
    consonants; otherwise it is the common triplet of the name's
    consonants and vowels. *)
Theorem name_triplet_rule :
  __name_triplet [] = Ok (lit "XXX")
  ∧ (∀ (name : str) (k1 k2 k3 k4 : ascii) (rest : str),
       name ≠ [] →
       consonants_of name = k1 :: k2 :: k3 :: k4 :: rest →
       __name_triplet name = Ok [k1; k3; k4])
  ∧ (∀ name : str,
       name ≠ [] →
       (length (consonants_of name) ≤ 3)%nat →
       __name_triplet name
       = __common_triplet name (consonants_of name) (vowels_of name)).
Proof.
  split; [reflexivity | split].
  - intros name k1 k2 k3 k4 rest Hne Hcs.
    rewrite name_triplet_unfold, bool_decide_eq_false_2 by assumption.
    rewrite Hcs. cbn [length Nat.ltb Nat.leb].
    rewrite (py_getitem_lookup _ 0 k1), (py_getitem_lookup _ 2 k3),
      (py_getitem_lookup _ 3 k4) by reflexivity.
    reflexivity.
  - intros name Hne Hlen.
    rewrite name_triplet_unfold, bool_decide_eq_false_2 by assumption.
    destruct (Nat.ltb_spec 3 (length (consonants_of name))); [lia | reflexivity].
Qed.

Lemma name_triplet_rule_witness :
  (lit "Roberto" ≠ []
   ∧ consonants_of (lit "Roberto") = lit "RBRT"
   ∧ __name_triplet (lit "Roberto") = Ok (lit "RRT"))
  ∧ (lit "Emanuele" ≠ []
     ∧ (length (consonants_of (lit "Emanuele")) ≤ 3)%nat
     ∧ __name_triplet (lit "Emanuele")
       = __common_triplet (lit "Emanuele") (consonants_of (lit "Emanuele"))
                          (vowels_of (lit "Emanuele"))).
Proof.
  assert (H1 : lit "Roberto" ≠ []) by discriminate.
  assert (H2 : consonants_of (lit "Roberto") = lit "RBRT") by reflexivity.
  assert (H3 : lit "Emanuele" ≠ []) by discriminate.
  assert (H4 : (length (consonants_of (lit "Emanuele")) ≤ 3)%nat)
    by (vm_compute; lia).
  split.
  - split; [exact H1 | split; [exact H2 |]].
    exact (proj1 (proj2 name_triplet_rule) _ _ _ _ _ _ H1 H2).
  - split; [exact H3 | split; [exact H4 |]].
    exact (proj2 (proj2 name_triplet_rule) _ H3 H4).
Defined.

(** C5, evaluated. A surname of more than two characters with fewer
    than three letters exhausts the vowels inside the loop: the pop from
    the empty list raises [IndexError] before the 'X' padding is
    reached. The same happens for a surname of fewer than two letters.
    The padding is reached for a two-letter surname. *)
Theorem common_triplet_pops_empty_vowels :
  __common_triplet (lit "Ng ") (lit "NG") [] = Raise IndexError
  ∧ __surname_triplet (lit "Ng ") = Raise IndexError
  ∧ __surname_triplet (lit "Jr.") = Raise IndexError
  ∧ __surname_triplet (lit "A") = Raise IndexError
  ∧ __surname_triplet [] = Raise IndexError
  ∧ __surname_triplet (lit "Fo") = Ok (lit "FOX").
Proof. repeat split; vm_compute; reflexivity. Qed.

Lemma consonants_and_vowels_cons c s :
  __consonants_and_vowels (c :: s) =
    let u := upper_char c in
    if bool_decide (u = " "%char) then (consonants_of s, vowels_of s)
    else ((if char_in u __CONSONANTS then [u] else []) ++ consonants_of s,
          (if char_in u __VOWELS then [u] else []) ++ vowels_of s).
Proof.
  unfold consonants_of, vowels_of, __consonants_and_vowels, remove_spaces,
    upper.
  cbn [map fst snd]. rewrite filter_cons.
  destruct (decide (upper_char c ≠ " "%char)) as [Hne|He].
  - rewrite bool_decide_eq_false_2 by assumption.
    rewrite !filter_cons.
    destruct (char_in (upper_char c) __CONSONANTS),
             (char_in (upper_char c) __VOWELS);
      repeat (destruct (decide _); try congruence); reflexivity.
  - rewrite bool_decide_eq_true_2; [reflexivity|].
    destruct (decide (upper_char c = " "%char)); [assumption | tauto].
Qed.

Lemma letter_split c : letter_split_check c = true.
Proof. by_all_ascii c. Qed.

Lemma consonants_and_vowels_letters s :
  (length (consonants_of s) + length (vowels_of s))%nat = letter_count s
  ∧ Forall is_AZ (consonants_of s)
  ∧ Forall is_AZ (vowels_of s).
Proof.
  induction s as [|c s (IHn & IHc & IHv)].
  - repeat split; constructor.
  - unfold letter_count in *. unfold consonants_of, vowels_of.
    rewrite consonants_and_vowels_cons. cbn zeta.
    rewrite filter_cons.
    pose proof (letter_split c) as Hc. unfold letter_split_check in Hc.
    cbn zeta in Hc.
    destruct (Ascii.eqb_spec (upper_char c) " "%char) as [He|Hne].
    + rewrite bool_decide_eq_true_2 by assumption.
      destruct (is_letter c); [discriminate|].
      destruct (decide (false = true)); [discriminate|].
      cbn [fst snd]. auto.
    + rewrite bool_decide_eq_false_2 by assumption.
      cbn [fst snd].
      destruct (char_in (upper_char c) __CONSONANTS),
               (char_in (upper_char c) __VOWELS),
               (is_letter c); try discriminate Hc;
        destruct (decide (_ = true)); try discriminate; try congruence;
        cbn [app length];
        cbn [Bool.eqb xorb andb orb negb implb] in Hc;
        (split; [lia | split]);
        try assumption;
        constructor; assumption.
Qed.

Lemma append_vowels_ok (stopat : nat) (vowels : str) : ∀ output,
  (stopat ≤ length output + length vowels)%nat →
  Forall is_AZ output → Forall is_AZ vowels →
  ∃ output', append_vowels stopat output vowels = Ok output'
             ∧ (stopat ≤ length output')%nat
             ∧ Forall is_AZ output'.
Proof.
  induction vowels as [|v vs IH]; intros output Hn Ho Hv; cbn [append_vowels].
  - destruct (Nat.ltb_spec (length output) stopat); [simpl in Hn; lia|].
    eauto.
  - destruct (Nat.ltb_spec (length output) stopat).
    + inversion Hv; subst. apply IH.
      * rewrite length_app. simpl in *. lia.
      * apply Forall_app. split; [assumption | repeat constructor; assumption].
      * assumption.
    + eauto.
Qed.

Lemma append_vowels_length (stopat : nat) (vowels : str) : ∀ output output',
  append_vowels stopat output vowels = Ok output' →
  (stopat ≤ length output')%nat.
Proof.
  induction vowels as [|v vs IH]; intros output output'; cbn [append_vowels];
    destruct (Nat.ltb_spec (length output) stopat); try discriminate.
  - intros [= <-]. assumption.
  - apply IH.
  - intros [= <-]. assumption.
Qed.

Lemma X_is_AZ : Forall is_AZ (lit "X").
Proof. repeat constructor. Qed.

Lemma common_triplet_ok (input cs vs : str) :
  (letters_needed input ≤ length cs + length vs)%nat →
  Forall is_AZ cs → Forall is_AZ vs →
  ∃ t, __common_triplet input cs vs = Ok t ∧ is_triplet t.
Proof.
  intros Hn Hc Hv. unfold __common_triplet. fold (letters_needed input).
  destruct (append_vowels_ok _ vs cs Hn Hc Hv) as (out & -> & Hlen & Hout).
  cbn [mbind result_bind]. eexists. split; [reflexivity|].
  assert (2 ≤ length out)%nat
    by (unfold letters_needed in Hlen; destruct (2 <? length input)%nat; lia).
  split.
  - destruct (Nat.eqb_spec (length out) 2);
      rewrite length_take, ?length_app;
      change (length (lit "X")) with 1%nat; lia.
  - apply Forall_take.
    destruct (length out =? 2)%nat; [|assumption].
    apply Forall_app. split; [assumption | apply X_is_AZ].
Qed.

Lemma common_triplet_length (input cs vs t : str) :
  __common_triplet input cs vs = Ok t → length t = 3%nat.
Proof.
  unfold __common_triplet. fold (letters_needed input).
  destruct (append_vowels _ cs vs) as [out|] eqn:E; [|discriminate].
  apply append_vowels_length in E.
  cbn [mbind result_bind]. intros [= <-].
  assert (2 ≤ length out)%nat
    by (unfold letters_needed in E; destruct (2 <? length input)%nat; lia).
  destruct (Nat.eqb_spec (length out) 2);
    rewrite length_take, ?length_app; cbn [length]; lia.
Qed.

Lemma surname_triplet_ok (surname : str) :
  (letters_needed surname ≤ letter_count surname)%nat →
  ∃ t, __surname_triplet surname = Ok t ∧ is_triplet t.
Proof.
  intros Hn. rewrite surname_triplet_unfold.
  destruct (consonants_and_vowels_letters surname) as (Hc & Hcs & Hvs).
  apply common_triplet_ok; [lia | assumption | assumption].
Qed.

Lemma name_triplet_ok (name : str) :
  name = [] ∨ (letters_needed name ≤ letter_count name)%nat →
  ∃ t, __name_triplet name = Ok t ∧ is_triplet t.
Proof.
  intros Hn. rewrite name_triplet_unfold.
  destruct (decide (name = [])) as [->|Hne].
  - eexists. split; [reflexivity|]. split; [reflexivity | repeat constructor].
  - rewrite bool_decide_eq_false_2 by assumption.
    destruct Hn as [? | Hn]; [contradiction|].
    destruct (consonants_and_vowels_letters name) as (Hc & Hcs & Hvs).
    destruct (Nat.ltb_spec 3 (length (consonants_of name))) as [Hgt|Hle].
    + destruct (consonants_of name) as [|k1 [|k2 [|k3 [|k4 rest]]]];
        try (simpl in Hgt; lia).
      rewrite (py_getitem_lookup _ 0 k1), (py_getitem_lookup _ 2 k3),
        (py_getitem_lookup _ 3 k4) by reflexivity.
      eexists. split; [reflexivity|].
      inversion Hcs as [|? ? H1 Hcs1]; subst.
      inversion Hcs1 as [|? ? H2 Hcs2]; subst.
      inversion Hcs2 as [|? ? H3 Hcs3]; subst.
      inversion Hcs3 as [|? ? H4 Hcs4]; subst.
      split; [reflexivity | repeat constructor; assumption].
    + apply common_triplet_ok; [lia | assumption | assumption].
Qed.

Lemma surname_triplet_length (surname t : str) :
  __surname_triplet surname = Ok t → length t = 3%nat.
Proof. rewrite surname_triplet_unfold. apply common_triplet_length. Qed.

Lemma name_triplet_length (name t : str) :
  __name_triplet name = Ok t → length t = 3%nat.
Proof.
  rewrite name_triplet_unfold.
  destruct (bool_decide (name = [])); [intros [= <-]; reflexivity|].
  destruct (3 <? length (consonants_of name))%nat.
  - destruct (py_getitem (consonants_of name) 0); [|discriminate].
    destruct (py_getitem (consonants_of name) 2); [|discriminate].
    destruct (py_getitem (consonants_of name) 3); [|discriminate].
    intros [= <-]. reflexivity.
  - apply common_triplet_length.
Qed.

(** ** The birth date of a code *)

Lemma day_year_charmap_eq :
  fill_table Ok (lit "LMNPQRSTUV") even_digits_table = Ok day_year_charmap.
Proof. apply from_ok_eq. vm_compute. reflexivity. Qed.

Lemma day_year_charmap_lookup c : day_year_charmap !! c = omocodia_value c.
Proof. apply option_Z_eqb_eq. by_all_ascii c. Qed.

Lemma month_index c :
  char_in c class_month = true →
  ∃ i, py_index MONTHSCODE c = Ok i ∧ 0 ≤ i < 12.
Proof.
  assert (G : implb (char_in c class_month)
                (match py_index MONTHSCODE c with
                 | Ok i => (0 <=? i) && (i <? 12)
                 | Raise _ => false
                 end) = true) by by_all_ascii c.
  intros H. rewrite H in G. cbn [implb] in G.
  destruct (py_index MONTHSCODE c) as [i|]; [|discriminate].
  apply andb_true_iff in G as [G1 G2].
  apply Z.leb_le in G1. apply Z.ltb_lt in G2. eauto.
Qed.

Lemma omocodia_class_value c :
  char_in c class_digit_omocodia = true →
  ∃ v, omocodia_value c = Some v ∧ 0 ≤ v ≤ 9.
Proof.
  assert (G : implb (char_in c class_digit_omocodia)
                (match omocodia_value c with
                 | Some v => (0 <=? v) && (v <=? 9)
                 | None => false
                 end) = true) by by_all_ascii c.
  intros H. rewrite H in G. cbn [implb] in G.
  destruct (omocodia_value c) as [v|]; [|discriminate].
  apply andb_true_iff in G as [G1 G2].
  apply Z.leb_le in G1, G2. eauto.
Qed.

Lemma get_birthday_16 c0 c1 c2 c3 c4 c5 c6 c7 c8 c9 c10 c11 c12 c13 c14 c15 :
  isvalid (PyStr [c0; c1; c2; c3; c4; c5; c6; c7; c8; c9; c10; c11; c12;
                  c13; c14; c15]) = Ok true →
  get_birthday [c0; c1; c2; c3; c4; c5; c6; c7; c8; c9; c10; c11; c12;
                c13; c14; c15]
  = (d1 ← dict_get day_year_charmap c9;
     d2 ← dict_get day_year_charmap c10;
     i ← py_index MONTHSCODE c8;
     y1 ← dict_get day_year_charmap c6;
     y2 ← dict_get day_year_charmap c7;
     Ok (render_birthday d1 d2 i y1 y2)).
Proof.
  intros Hv. unfold get_birthday. rewrite Hv.
  cbn [mbind result_bind py_assert].
  rewrite even_digits_table_eq. cbn [mbind result_bind].
  rewrite day_year_charmap_eq. cbn [mbind result_bind].
  change (py_getitem [c0; c1; c2; c3; c4; c5; c6; c7; c8; c9; c10; c11; c12;
                      c13; c14; c15] 9) with (Ok c9).
  change (py_getitem [c0; c1; c2; c3; c4; c5; c6; c7; c8; c9; c10; c11; c12;
                      c13; c14; c15] 10) with (Ok c10).
  change (py_getitem [c0; c1; c2; c3; c4; c5; c6; c7; c8; c9; c10; c11; c12;
                      c13; c14; c15] 8) with (Ok c8).
  change (py_getitem [c0; c1; c2; c3; c4; c5; c6; c7; c8; c9; c10; c11; c12;
                      c13; c14; c15] 6) with (Ok c6).
  change (py_getitem [c0; c1; c2; c3; c4; c5; c6; c7; c8; c9; c10; c11; c12;
                      c13; c14; c15] 7) with (Ok c7).
  cbn [mbind result_bind].
  destruct (dict_get day_year_charmap c9); [|reflexivity].
  destruct (dict_get day_year_charmap c10); [|reflexivity].
  reflexivity.
Qed.

Lemma get_birthday_decoded
    c0 c1 c2 c3 c4 c5 c6 c7 c8 c9 c10 c11 c12 c13 c14 c15 d1 d2 i y1 y2 :
  isvalid (PyStr [c0; c1; c2; c3; c4; c5; c6; c7; c8; c9; c10; c11; c12;
                  c13; c14; c15]) = Ok true →
  omocodia_value c9 = Some d1 → omocodia_value c10 = Some d2 →
  py_index MONTHSCODE c8 = Ok i →
  omocodia_value c6 = Some y1 → omocodia_value c7 = Some y2 →
  get_birthday [c0; c1; c2; c3; c4; c5; c6; c7; c8; c9; c10; c11; c12;
                c13; c14; c15]
  = Ok (render_birthday d1 d2 i y1 y2).
Proof.
  intros Hv H9 H10 H8 H6 H7. rewrite get_birthday_16 by assumption.
  unfold dict_get. rewrite !day_year_charmap_lookup, H9, H10, H8, H6, H7.
  reflexivity.
Qed.

(** The classes of the year, month and day characters of a valid code,
    after upper-casing. *)
Lemma isvalid_date_classes
    c0 c1 c2 c3 c4 c5 c6 c7 c8 c9 c10 c11 c12 c13 c14 c15 :
  isvalid (PyStr [c0; c1; c2; c3; c4; c5; c6; c7; c8; c9; c10; c11; c12;
                  c13; c14; c15]) = Ok true →
  char_in (upper_char c6) class_digit_omocodia = true
  ∧ char_in (upper_char c7) class_digit_omocodia = true
  ∧ char_in (upper_char c8) class_month = true
  ∧ char_in (upper_char c9) class_digit_omocodia = true
  ∧ char_in (upper_char c10) class_digit_omocodia = true.
Proof.
  rewrite isvalid_verdict. intros [= H]. unfold isvalid_spec in H.
  apply andb_true_iff in H as [H _]. apply andb_true_iff in H as [_ H].
  cbn [upper map matches_from] in H.
  cbv [position_class Nat.ltb Nat.leb Nat.eqb] in H.
  repeat (apply andb_true_iff in H as [? H]).
  repeat split; assumption.
Qed.

Lemma isvalid_length s : isvalid (PyStr s) = Ok true → length s = 16%nat.
Proof.
  rewrite isvalid_verdict. intros [= H]. unfold isvalid_spec in H.
  apply andb_true_iff in H as [H _]. apply andb_true_iff in H as [H _].
  apply Nat.eqb_eq. exact H.
Qed.

Lemma same_or_alias_value a b :
  same_or_alias a b = true → omocodia_value a = omocodia_value b.
Proof.
  assert (G : ∀ a, match omocodia_letter a with
                   | Some l => option_Z_eqb (omocodia_value a) (omocodia_value l)
                   | None => true
                   end = true) by (intros c; by_all_ascii c).
  unfold same_or_alias. intros H.
  apply orb_true_iff in H as [H | H]; [apply orb_true_iff in H as [H | H]|].
  - apply Ascii.eqb_eq in H. congruence.
  - specialize (G a). destruct (omocodia_letter a) as [l|]; [|discriminate].
    apply Ascii.eqb_eq in H. subst l. apply option_Z_eqb_eq. exact G.
  - specialize (G b). destruct (omocodia_letter b) as [l|]; [|discriminate].
    apply Ascii.eqb_eq in H. subst l. symmetry. apply option_Z_eqb_eq. exact G.
Qed.

(** What a valid code with no lower-case letter among its date
    characters decodes to. *)
Lemma get_birthday_upper_date (code : str) :
  isvalid (PyStr code) = Ok true →
  upper (date_field code) = date_field code →
  ∃ c6 c7 c8 c9 c10 d1 d2 i y1 y2,
    date_field code = [c6; c7; c8; c9; c10]
    ∧ omocodia_value c9 = Some d1 ∧ omocodia_value c10 = Some d2
    ∧ py_index MONTHSCODE c8 = Ok i
    ∧ omocodia_value c6 = Some y1 ∧ omocodia_value c7 = Some y2
    ∧ 0 ≤ i < 12 ∧ 0 ≤ y1 ≤ 9 ∧ 0 ≤ y2 ≤ 9
    ∧ get_birthday code = Ok (render_birthday d1 d2 i y1 y2).
Proof.
  intros Hv Hup.
  destruct (length_16_inv code (isvalid_length _ Hv))
    as (c0 & c1 & c2 & c3 & c4 & c5 & c6 & c7 & c8 & c9 & c10 & c11 & c12
        & c13 & c14 & c15 & ->).
  destruct (isvalid_date_classes _ _ _ _ _ _ _ _ _ _ _ _ _ _ _ _ Hv)
    as (H6 & H7 & H8 & H9 & H10).
  cbn [date_field take drop upper map] in Hup.
  injection Hup as E6 E7 E8 E9 E10.
  rewrite E6 in H6. rewrite E7 in H7. rewrite E8 in H8.
  rewrite E9 in H9. rewrite E10 in H10.
  destruct (omocodia_class_value _ H6) as (y1 & Hy1 & ?).
  destruct (omocodia_class_value _ H7) as (y2 & Hy2 & ?).
  destruct (omocodia_class_value _ H9) as (d1 & Hd1 & ?).
  destruct (omocodia_class_value _ H10) as (d2 & Hd2 & ?).
  destruct (month_index _ H8) as (i & Hi & ?).
  exists c6, c7, c8, c9, c10, d1, d2, i, y1, y2.
  repeat (split; [first [reflexivity | assumption | lia]|]).
  apply get_birthday_decoded; assumption.
Qed.

Lemma variants_date_field (c1 c2 : str)
    a6 a7 a8 a9 a10 b6 b7 b8 b9 b10 :
  omocodia_variants c1 c2 = true →
  date_field c1 = [a6; a7; a8; a9; a10] →
  date_field c2 = [b6; b7; b8; b9; b10] →
  same_or_alias a6 b6 = true ∧ same_or_alias a7 b7 = true ∧ a8 = b8
  ∧ same_or_alias a9 b9 = true ∧ same_or_alias a10 b10 = true.
Proof.
  unfold omocodia_variants, date_field. intros Hvar H1 H2.
  do 6 (destruct c1 as [|? c1]; [discriminate H1|]).
  do 6 (destruct c2 as [|? c2]; [discriminate H2|]).
  cbn [drop] in H1, H2.
  do 5 (destruct c1 as [|? c1]; [discriminate H1|]).
  do 5 (destruct c2 as [|? c2]; [discriminate H2|]).
  cbn [take] in H1, H2.
  injection H1 as -> -> -> -> ->. injection H2 as -> -> -> -> ->.
  cbn [variants_from] in Hvar.
  cbv [alias_position Nat.eqb orb] in Hvar.
  repeat (apply andb_true_iff in Hvar as [? Hvar]).
  repeat split; try assumption.
  apply Ascii.eqb_eq. assumption.
Qed.

(** Omocodia invariance where [get_birthday] returns. For two codes
    that both satisfy [isvalid], hold no lower-case letter among their
    year, month and day characters (positions 7 to 11), and agree
    except that at positions 7, 8, 10, 11 one may hold a digit where
    the other holds its letter alias (the control characters
    following), [get_birthday] returns the same string. *)
Theorem get_birthday_omocodia_invariant (c1 c2 : str) :
  isvalid (PyStr c1) = Ok true →
  isvalid (PyStr c2) = Ok true →
  upper (date_field c1) = date_field c1 →
  upper (date_field c2) = date_field c2 →
  omocodia_variants c1 c2 = true →
  ∃ s, get_birthday c1 = Ok s ∧ get_birthday c2 = Ok s.
Proof.
  intros Hv1 Hv2 Hu1 Hu2 Hvar.
  destruct (get_birthday_upper_date c1 Hv1 Hu1)
    as (a6 & a7 & a8 & a9 & a10 & d1 & d2 & i & y1 & y2 & Hf1 & Ha9 & Ha10
        & Ha8 & Ha6 & Ha7 & _ & _ & _ & ->).
  destruct (get_birthday_upper_date c2 Hv2 Hu2)
    as (b6 & b7 & b8 & b9 & b10 & e1 & e2 & j & z1 & z2 & Hf2 & Hb9 & Hb10
        & Hb8 & Hb6 & Hb7 & _ & _ & _ & ->).
  destruct (variants_date_field _ _ _ _ _ _ _ _ _ _ _ _ Hvar Hf1 Hf2)
    as (S6 & S7 & -> & S9 & S10).
  apply same_or_alias_value in S6, S7, S9, S10.
  assert (d1 = e1) by congruence. assert (d2 = e2) by congruence.
  assert (y1 = z1) by congruence. assert (y2 = z2) by congruence.
  assert (i = j) by congruence. subst.
  eexists. split; reflexivity.
Qed.

Lemma get_birthday_omocodia_invariant_witness :
  ∃ s, get_birthday (lit "RCCMNL83S18D969H") = Ok s
       ∧ get_birthday (lit "RCCMNLU3S1UD969B") = Ok s.
Proof.
  apply get_birthday_omocodia_invariant; vm_compute; reflexivity.
Defined.

(** C7, evaluated. "RCCMNL83s18D969H" and "RCCMNLU3s18D969E" are
    accepted by [isvalid], which upper-cases its input, and differ by
    one letter alias in the year. [get_birthday] passes its
    [assert isvalid(code)] on both and then raises [ValueError] at
    [MONTHSCODE.index('s')] instead of returning their common birth
    date: it reads the characters without upper-casing them. *)
Lemma get_birthday_lowercase_month_raises :
  isvalid (PyStr (lit "RCCMNL83s18D969H")) = Ok true
  ∧ isvalid (PyStr (lit "RCCMNLU3s18D969E")) = Ok true
  ∧ omocodia_variants (lit "RCCMNL83s18D969H") (lit "RCCMNLU3s18D969E") = true
  ∧ get_birthday (lit "RCCMNL83s18D969H") = Raise ValueError
  ∧ get_birthday (lit "RCCMNLU3s18D969E") = Raise ValueError.
Proof. repeat split; vm_compute; reflexivity. Qed.

(** X13. For a code that satisfies [isvalid], holds no lower-case
    letter among its year, month and day characters, and whose two day
    characters both decode to 0 under the omocodia map, [get_birthday]
    returns a string whose day component is -40: the value 0 is false
    in [day < 32 and day or day - 40]. *)
Theorem get_birthday_day_zero (code : str) (a b : ascii) :
  isvalid (PyStr code) = Ok true →
  upper (date_field code) = date_field code →
  code !! 9%nat = Some a → code !! 10%nat = Some b →
  omocodia_value a = Some 0 → omocodia_value b = Some 0 →
  ∃ mm yy, 1 ≤ mm ≤ 12 ∧ 0 ≤ yy ≤ 99
    ∧ get_birthday code
      = Ok (lit "-40" ++ lit "-" ++ fmt_0d 2 mm ++ lit "-" ++ fmt_0d 2 yy).
Proof.
  intros Hv Hup Ha Hb Hda Hdb.
  destruct (get_birthday_upper_date code Hv Hup)
    as (c6 & c7 & c8 & c9 & c10 & d1 & d2 & i & y1 & y2 & Hf & H9 & H10
        & H8 & H6 & H7 & Hi & Hy1 & Hy2 & ->).
  assert (c9 = a ∧ c10 = b) as [-> ->].
  { unfold date_field in Hf.
    do 11 (destruct code as [|? code]; [discriminate Hf|]).
    cbn [take drop] in Hf. cbn in Ha, Hb. split; congruence. }
  assert (d1 = 0) by congruence. assert (d2 = 0) by congruence. subst.
  exists (i + 1), (y1 * 10 + y2).
  split; [lia | split; [lia | reflexivity]].
Qed.

Lemma get_birthday_day_zero_witness :
  ∃ mm yy, 1 ≤ mm ≤ 12 ∧ 0 ≤ yy ≤ 99
    ∧ get_birthday (lit "RCCMNL83S00D969O")
      = Ok (lit "-40" ++ lit "-" ++ fmt_0d 2 mm ++ lit "-" ++ fmt_0d 2 yy).
Proof.
  apply (get_birthday_day_zero (lit "RCCMNL83S00D969O") "0"%char "0"%char);
    vm_compute; reflexivity.
Defined.

Example day_zero_doc :
  get_birthday (lit "RCCMNL83S00D969O") = Ok (lit "-40-11-83")
  ∧ get_birthday (lit "RCCMNL83SLLD969C") = Ok (lit "-40-11-83").
Proof. split; vm_compute; reflexivity. Qed.

(** C10, evaluated. "RCCMNL83s00D969O" is accepted by [isvalid], which
    upper-cases its input, and its day field is "00". [get_birthday]
    passes its [assert isvalid(code)], computes the day, and then raises
    [ValueError] at [MONTHSCODE.index('s')] instead of reporting the
    day as -40: it reads the month letter without upper-casing it. *)
Lemma get_birthday_day_zero_lowercase_raises :
  isvalid (PyStr (lit "RCCMNL83s00D969O")) = Ok true
  ∧ lit "RCCMNL83s00D969O" !! 9%nat = Some "0"%char
  ∧ lit "RCCMNL83s00D969O" !! 10%nat = Some "0"%char
  ∧ omocodia_value "0" = Some 0
  ∧ get_birthday (lit "RCCMNL83s00D969O") = Raise ValueError.
Proof. repeat split; vm_compute; reflexivity. Qed.

(** ** The sex of a code *)

(** C4, evaluated. "RCCMNL83S1UD969E" is the code "RCCMNL83S18D969H"
    with the second day digit replaced by its letter alias: [isvalid]
    accepts it and [get_birthday] decodes it, while [get_sex] raises
    [ValueError], since [int] does not read the letter. *)
Theorem get_sex_omocodia_day_raises :
  isvalid (PyStr (lit "RCCMNL83S1UD969E")) = Ok true
  ∧ get_birthday (lit "RCCMNL83S1UD969E") = Ok (lit "18-11-83")
  ∧ get_sex (lit "RCCMNL83S1UD969E") = Raise ValueError.
Proof. repeat split; vm_compute; reflexivity. Qed.

Lemma py_int_two_digits (a b : ascii) :
  char_in a digits = true → char_in b digits = true →
  py_int [a; b] = Ok (ordinal a digits * 10 + ordinal b digits).
Proof.
  assert (G : ∀ c, implb (char_in c digits)
                     (negb (is_blank c) && negb (Ascii.eqb c "-")
                      && negb (Ascii.eqb c "+") && is_digit c
                      && (digit_value c =? ordinal c digits)) = true)
    by (intros c; by_all_ascii c).
  intros Ha Hb. pose proof (G a) as Ga. pose proof (G b) as Gb.
  rewrite Ha in Ga. rewrite Hb in Gb. cbn [implb] in Ga, Gb.
  repeat (apply andb_true_iff in Ga as [Ga ?]).
  repeat (apply andb_true_iff in Gb as [Gb ?]).
  repeat match goal with
         | H : negb _ = true |- _ => apply negb_true_iff in H
         | H : (_ =? _) = true |- _ => apply Z.eqb_eq in H
         end.
  assert (Hs : strip [a; b] = [a; b]).
  { unfold strip. cbn [lstrip]. rewrite Ga. cbn [rev app lstrip].
    rewrite Gb. reflexivity. }
  unfold py_int. rewrite Hs.
  destruct (Ascii.eqb_spec a "-"); [discriminate|].
  destruct (Ascii.eqb_spec a "+"); [discriminate|].
  assert (Hd : py_int_digits [a; b]
               = Ok (ordinal a digits * 10 + ordinal b digits)).
  { unfold py_int_digits. cbn [forallb foldl].
    repeat match goal with H : is_digit _ = true |- _ => rewrite H end.
    cbn [andb]. f_equal. lia. }
  destruct a as [[] [] [] [] [] [] [] []]; try exact Hd; congruence.
Qed.

(** On a valid code whose two day characters are decimal digits,
    [get_sex] returns "M" when their value is below 32 and "F"
    otherwise. *)
Lemma get_sex_digits (code : str) (a b : ascii) :
  isvalid (PyStr code) = Ok true →
  take 2 (drop 9 code) = [a; b] →
  char_in a digits = true → char_in b digits = true →
  get_sex code
  = Ok (if ordinal a digits * 10 + ordinal b digits <? 32
        then lit "M" else lit "F").
Proof.
  intros Hv Hf Ha Hb. unfold get_sex. rewrite Hv.
  cbn [mbind result_bind py_assert]. rewrite Hf.
  rewrite py_int_two_digits by assumption. reflexivity.
Qed.

(** ** The code of a person *)

Lemma build_unfold surname name birthday sex municipality :
  build surname name birthday sex municipality =
    (s ← __surname_triplet surname;
     n ← __name_triplet name;
     m ← py_getitem MONTHSCODE (month birthday - 1);
     let output :=
       ((((s ++ n) ++ drop 2 (py_str (year birthday))) ++ [m])
          ++ fmt_0d 2 (day_code sex (day birthday))) ++ municipality in
     cc ← control_code output;
     ok ← isvalid (PyStr (output ++ [cc]));
     _ ← py_assert ok;
     Ok (output ++ [cc])).
Proof. reflexivity. Qed.

Lemma two_digits_of_inv (s : str) (n : Z) :
  two_digits_of s n = true →
  ∃ a b, s = [a; b] ∧ char_in a digits = true ∧ char_in b digits = true
         ∧ ordinal a digits * 10 + ordinal b digits = n.
Proof.
  destruct s as [|a [|b [|]]]; try discriminate. cbn [two_digits_of].
  intros H. apply andb_true_iff in H as [H H3].
  apply andb_true_iff in H as [H1 H2]. apply Z.eqb_eq in H3. eauto 10.
Qed.

(** [str(year)[2:]] holds the last two digits of a four-digit year,
    and fewer than two characters for a shorter one. *)
Lemma year_suffix (y : Z) :
  1 ≤ y ≤ 9999 →
  1000 ≤ y ∨ length (drop 2 (py_str y)) = 2%nat →
  two_digits_of (drop 2 (py_str y)) (y mod 100) = true.
Proof.
  intros Hy Hlen.
  pose (P := λ y, two_digits_of (drop 2 (py_str y)) (y mod 100)
                  || ((y <? 1000)
                      && negb (length (drop 2 (py_str y)) =? 2)%nat)).
  assert (H : P y = true).
  { apply (forall_range P 1 9999); [vm_compute; reflexivity | lia]. }
  unfold P in H. apply orb_true_iff in H as [H | H]; [exact H|].
  apply andb_true_iff in H as [H1 H2].
  apply Z.ltb_lt in H1. apply negb_true_iff, Nat.eqb_neq in H2.
  destruct Hlen; [lia | contradiction].
Qed.

Lemma day_field (n : Z) :
  0 ≤ n ≤ 99 → two_digits_of (fmt_0d 2 n) n = true.
Proof.
  intros Hn.
  apply (forall_range (λ n, two_digits_of (fmt_0d 2 n) n) 0 100);
    [vm_compute; reflexivity | lia].
Qed.

Lemma month_letter (m : Z) :
  1 ≤ m ≤ 12 →
  ∃ c, py_getitem MONTHSCODE (m - 1) = Ok c
       ∧ char_in c class_month = true
       ∧ py_index MONTHSCODE c = Ok (m - 1).
Proof.
  intros Hm.
  pose (P := λ m, match py_getitem MONTHSCODE (m - 1) with
                  | Ok c => char_in c class_month
                            && result_Z_eqb (py_index MONTHSCODE c) (Ok (m - 1))
                  | Raise _ => false
                  end).
  assert (H : P m = true).
  { apply (forall_range P 1 12); [vm_compute; reflexivity | lia]. }
  unfold P in H. destruct (py_getitem MONTHSCODE (m - 1)) as [c|]; [|discriminate].
  apply andb_true_iff in H as [H1 H2]. exists c. repeat split; [exact H1|].
  destruct (py_index MONTHSCODE c) as [i|]; [|discriminate].
  cbn in H2. apply Z.eqb_eq in H2. congruence.
Qed.

Lemma digit_class c :
  char_in c digits = true →
  char_in c class_digit_omocodia = true
  ∧ omocodia_value c = Some (ordinal c digits).
Proof.
  assert (G : implb (char_in c digits) (char_in c class_digit_omocodia)
              = true) by by_all_ascii c.
  intros H. split.
  - rewrite H in G. exact G.
  - unfold omocodia_value. rewrite H. reflexivity.
Qed.

Lemma day_code_range (sex : str) (d : Z) :
  1 ≤ d ≤ 31 →
  0 ≤ day_code sex d ≤ 99
  ∧ (if (day_code sex d <? 32) && negb (day_code sex d =? 0)
     then day_code sex d else day_code sex d - 40) = d.
Proof.
  intros Hd. unfold day_code.
  destruct (bool_decide (sex = lit "M")); cbn [andb].
  - destruct (Z.eqb_spec d 0); [lia|]. cbn [negb].
    destruct (Z.ltb_spec d 32); [|lia].
    destruct (Z.eqb_spec d 0); [lia|]. cbn [andb negb]. lia.
  - destruct (Z.ltb_spec (40 + d) 32); [lia|]. cbn [andb]. lia.
Qed.

Lemma control_code_length (s : str) (c : ascii) :
  control_code s = Ok c → length s = 15%nat.
Proof.
  rewrite control_code_unfold.
  destruct (Nat.eqb_spec (length s) 15); [auto | discriminate].
Qed.

Ltac split_Forall :=
  repeat match goal with
         | H : Forall _ (_ :: _) |- _ => apply Forall_cons in H as [? H]
         | H : Forall _ [] |- _ => clear H
         end.

(** Fifteen characters in the classes of their positions, followed by
    their control letter, form a code that [isvalid] accepts. *)
Lemma isvalid_assembled s0 s1 s2 n0 n1 n2 y0 y1 m d0 d1 m0 m1 m2 m3 :
  Forall is_AZ [s0; s1; s2; n0; n1; n2; m0] →
  Forall (λ c, char_in c class_digit_omocodia = true)
         [y0; y1; d0; d1; m1; m2; m3] →
  char_in m class_month = true →
  ∃ cc,
    control_code [s0; s1; s2; n0; n1; n2; y0; y1; m; d0; d1; m0; m1; m2; m3]
    = Ok cc
    ∧ isvalid (PyStr [s0; s1; s2; n0; n1; n2; y0; y1; m; d0; d1; m0; m1; m2;
                      m3; cc]) = Ok true.
Proof.
  intros HAZ Hdo Hm.
  split_Forall.
  unfold is_AZ in *.
  set (out := [s0; s1; s2; n0; n1; n2; y0; y1; m; d0; d1; m0; m1; m2; m3]).
  assert (Hout : matches_from 0 out = true).
  { subst out. cbn [matches_from].
    cbv [position_class Nat.ltb Nat.leb Nat.eqb].
    repeat match goal with H : char_in _ _ = true |- _ => rewrite H; clear H end.
    reflexivity. }
  destruct (control_code_correct out eq_refl
              (matches_from_code_chars _ _ Hout)) as [Hcc Hletter].
  exists (control_letter out). split; [exact Hcc|].
  rewrite isvalid_verdict. f_equal. unfold isvalid_spec.
  assert (Hall : matches_from 0 (out ++ [control_letter out]) = true).
  { subst out. cbn [matches_from app] in Hout |- *.
    cbv [position_class Nat.ltb Nat.leb Nat.eqb] in Hout |- *.
    repeat (apply andb_true_iff in Hout as [-> Hout]).
    rewrite Hletter. reflexivity. }
  change [s0; s1; s2; n0; n1; n2; y0; y1; m; d0; d1; m0; m1; m2; m3;
          control_letter out] with (out ++ [control_letter out]).
  rewrite (upper_code_chars _ (matches_from_code_chars _ _ Hall)), Hall.
  change (take 15 (out ++ [control_letter out])) with out.
  change ((out ++ [control_letter out]) !! 15%nat)
    with (Some (control_letter out)).
  cbn [length app out Nat.eqb andb]. apply Ascii.eqb_refl.
Qed.

Lemma municipality_inv (municipality : str) :
  match_classes municipality_pattern municipality = Some [] →
  ∃ m0 m1 m2 m3,
    municipality = [m0; m1; m2; m3]
    ∧ is_AZ m0
    ∧ Forall (λ c, char_in c class_digit_omocodia = true) [m1; m2; m3].
Proof.
  unfold municipality_pattern. intros H.
  destruct municipality as [|m0 [|m1 [|m2 [|m3 rest]]]];
    cbn [match_classes match_repeat] in H;
    repeat match type of H with
           | context [char_in ?c ?cls] =>
               destruct (char_in c cls) eqn:?; try discriminate H
           end; try discriminate H.
  injection H as ->.
  exists m0, m1, m2, m3. repeat split; try assumption.
  repeat constructor; assumption.
Qed.

Lemma triplet_inv (t : str) :
  is_triplet t → ∃ a b c, t = [a; b; c] ∧ Forall is_AZ [a; b; c].
Proof.
  intros [Hlen HAZ]. destruct t as [|a [|b [|c [|]]]]; try discriminate.
  eauto.
Qed.

Lemma build_ok surname name birthday sex municipality :
  encodable surname →
  name = [] ∨ encodable name →
  1000 ≤ year birthday ≤ 9999 →
  1 ≤ month birthday ≤ 12 →
  1 ≤ day birthday ≤ 31 →
  match_classes municipality_pattern municipality = Some [] →
  ∃ code, build surname name birthday sex municipality = Ok code
          ∧ length code = 16%nat
          ∧ isvalid (PyStr code) = Ok true.
Proof.
  intros Hs Hn Hy Hm Hd Hmuni. rewrite build_unfold.
  destruct (surname_triplet_ok surname Hs) as (s & -> & Hst).
  destruct (name_triplet_ok name Hn) as (n & -> & Hnt).
  destruct (triplet_inv s Hst) as (s0 & s1 & s2 & -> & HsAZ).
  destruct (triplet_inv n Hnt) as (n0 & n1 & n2 & -> & HnAZ).
  destruct (month_letter _ Hm) as (m & -> & Hmc & _).
  destruct (two_digits_of_inv _ _
              (year_suffix (year birthday) ltac:(lia) ltac:(left; lia)))
    as (y0 & y1 & -> & Hy0 & Hy1 & _).
  destruct (day_code_range sex _ Hd) as [Hrange _].
  destruct (two_digits_of_inv _ _ (day_field _ Hrange))
    as (d0 & d1 & -> & Hd0 & Hd1 & _).
  destruct (municipality_inv _ Hmuni) as (m0 & m1 & m2 & m3 & -> & Hm0 & Hm123).
  cbn [mbind result_bind app].
  destruct (isvalid_assembled s0 s1 s2 n0 n1 n2 y0 y1 m d0 d1 m0 m1 m2 m3)
    as (cc & -> & Hv).
  - split_Forall. repeat constructor; assumption.
  - split_Forall.
    repeat constructor; try assumption; apply digit_class; assumption.
  - assumption.
  - cbn [mbind result_bind app]. rewrite Hv.
    cbn [mbind result_bind py_assert].
    eexists. split; [reflexivity | split; [reflexivity | exact Hv]].
Qed.

(** C1, as amended. [build] returns a 16-character code that [isvalid]
    accepts whenever the surname has the letters its triplet needs
    (three letters, or two letters and no other character), the given
    name is empty or has them likewise, the birth year has four digits,
    the month is in 1..12 and the day in 1..31, and the municipality
    code is an upper-case letter followed by three characters among the
    digits and L, M, N, P, Q, R, S, T, U, V; whatever the sex. On
    ('Rocca', 'Emanuele', 1983-11-18, 'M', 'D969') it returns
    "RCCMNL83S18D969H". *)
Theorem build_isvalid :
  (∀ (surname name : str) (birthday : date) (sex municipality : str),
     encodable surname →
     name = [] ∨ encodable name →
     1000 ≤ year birthday ≤ 9999 →
     1 ≤ month birthday ≤ 12 →
     1 ≤ day birthday ≤ 31 →
     match_classes municipality_pattern municipality = Some [] →
     ∃ code, build surname name birthday sex municipality = Ok code
             ∧ length code = 16%nat
             ∧ isvalid (PyStr code) = Ok true)
  ∧ build (lit "Rocca") (lit "Emanuele") rocca_birthday (lit "M") (lit "D969")
    = Ok (lit "RCCMNL83S18D969H").
Proof.
  split.
  - intros. apply build_ok; assumption.
  - vm_compute. reflexivity.
Qed.

Lemma build_isvalid_witness :
  ∃ code, build (lit "Rocca") (lit "Emanuele") rocca_birthday (lit "F")
                (lit "D969") = Ok code
          ∧ length code = 16%nat
          ∧ isvalid (PyStr code) = Ok true.
Proof.
  apply (proj1 build_isvalid).
  - unfold encodable. vm_compute. lia.
  - right. unfold encodable. vm_compute. lia.
  - vm_compute. split; discriminate.
  - vm_compute. split; discriminate.
  - vm_compute. split; discriminate.
  - vm_compute. reflexivity.
Defined.

(** C1, refuted as stated: a person input within the stated
    preconditions (text names, month 11, day 18, sex 'M', a
    4-character municipality code) on which [build] raises: the code it
    assembles fails its closing [assert isvalid(output)]. *)
Lemma build_unregistered_municipality_raises :
  1 ≤ month rocca_birthday ≤ 12
  ∧ 1 ≤ day rocca_birthday ≤ 31
  ∧ length (lit "AAAA") = 4%nat
  ∧ build (lit "Rocca") (lit "Emanuele") rocca_birthday (lit "M") (lit "AAAA")
    = Raise AssertionError.
Proof. vm_compute. repeat split; discriminate. Qed.

(** Each condition of the amended statement is needed: [build] raises
    on a surname with too few letters, on a given name with too few
    letters, on a year of fewer than four digits and on a municipality
    code in lower case. *)
Example build_needs_each_condition :
  build (lit "Ng ") (lit "Emanuele") rocca_birthday (lit "M") (lit "D969")
  = Raise IndexError
  ∧ build (lit "Rocca") (lit "E.") rocca_birthday (lit "M") (lit "D969")
    = Raise IndexError
  ∧ build (lit "Rocca") (lit "Emanuele") (Date 983 11 18) (lit "M")
          (lit "D969") = Raise AssertionError
  ∧ build (lit "Rocca") (lit "Emanuele") rocca_birthday (lit "M")
          (lit "d969") = Raise KeyError.
Proof. repeat split; vm_compute; reflexivity. Qed.

(** ** The date round trip *)

Lemma length_3_inv (t : str) :
  length t = 3%nat → ∃ a b c, t = [a; b; c].
Proof.
  destruct t as [|a [|b [|c [|]]]]; try discriminate. eauto.
Qed.

Lemma length_4_inv (t : str) :
  length t = 4%nat → ∃ a b c d, t = [a; b; c; d].
Proof.
  destruct t as [|a [|b [|c [|d [|]]]]]; try discriminate. eauto.
Qed.

Lemma get_birthday_of_built
    (surname name : str) (birthday : date) (sex municipality code : str) :
  1 ≤ year birthday ≤ 9999 →
  1 ≤ month birthday ≤ 12 →
  1 ≤ day birthday ≤ 31 →
  length municipality = 4%nat →
  build surname name birthday sex municipality = Ok code →
  get_birthday code
  = Ok (fmt_0d 2 (day birthday) ++ lit "-" ++ fmt_0d 2 (month birthday)
        ++ lit "-" ++ fmt_0d 2 (year birthday mod 100)).
Proof.
  intros Hy Hm Hd Hmuni Hb. rewrite build_unfold in Hb.
  destruct (__surname_triplet surname) as [s|] eqn:Es; [|discriminate].
  destruct (__name_triplet name) as [n|] eqn:En; [|discriminate].
  destruct (length_3_inv _ (surname_triplet_length _ _ Es))
    as (s0 & s1 & s2 & ->).
  destruct (length_3_inv _ (name_triplet_length _ _ En))
    as (n0 & n1 & n2 & ->).
  destruct (month_letter _ Hm) as (m & Em & _ & Hidx).
  rewrite Em in Hb.
  destruct (day_code_range sex _ Hd) as [Hrange Hday].
  destruct (two_digits_of_inv _ _ (day_field _ Hrange))
    as (d0 & d1 & Edd & Hd0 & Hd1 & Hdv).
  rewrite Edd in Hb.
  destruct (length_4_inv _ Hmuni) as (m0 & m1 & m2 & m3 & ->).
  cbn [mbind result_bind] in Hb.
  destruct (control_code _) as [cc|] eqn:Ecc; [|discriminate].
  apply control_code_length in Ecc.
  assert (Hlen : length (drop 2 (py_str (year birthday))) = 2%nat).
  { rewrite !length_app in Ecc. cbn [length] in Ecc. lia. }
  destruct (two_digits_of_inv _ _
              (year_suffix (year birthday) Hy (or_intror Hlen)))
    as (y0 & y1 & Eyy & Hy0 & Hy1 & Hyv).
  rewrite Eyy in Hb. cbn [mbind result_bind app] in Hb.
  destruct (isvalid _) as [[|]|] eqn:Ev; try discriminate.
  cbn [mbind result_bind py_assert] in Hb. injection Hb as <-.
  rewrite (get_birthday_decoded _ _ _ _ _ _ _ _ _ _ _ _ _ _ _ _
             (ordinal d0 digits) (ordinal d1 digits) (month birthday - 1)
             (ordinal y0 digits) (ordinal y1 digits) Ev);
    try (apply digit_class; assumption); try assumption.
  unfold render_birthday. cbn zeta.
  rewrite Hdv, Hday, Hyv, Z.sub_add. reflexivity.
Qed.


(** C8, as amended. Date round trip: for a birth date (year 1..9999,
    month 1..12, day 1..31), a 4-character municipality code and either
    sex, every code that [build] returns is decoded by [get_birthday]
    to "DD-MM-YY", formatted with zero padding from the day, the month
    and the year modulo 100; and [build] does return such a code when
    the surname has the letters its triplet needs, the given name is
    empty or has them likewise, the year has four digits and the
    municipality code is an upper-case letter followed by three
    characters among the digits and L, M, N, P, Q, R, S, T, U, V. *)
Theorem get_birthday_build :
  (∀ (surname name : str) (birthday : date) (sex municipality code : str),
     1 ≤ year birthday ≤ 9999 →
     1 ≤ month birthday ≤ 12 →
     1 ≤ day birthday ≤ 31 →
     length municipality = 4%nat →
     build surname name birthday sex municipality = Ok code →
     get_birthday code
     = Ok (fmt_0d 2 (day birthday) ++ lit "-" ++ fmt_0d 2 (month birthday)
           ++ lit "-" ++ fmt_0d 2 (year birthday mod 100)))
  ∧ (∀ (surname name : str) (birthday : date) (sex municipality : str),
       encodable surname →
       name = [] ∨ encodable name →
       1000 ≤ year birthday ≤ 9999 →
       1 ≤ month birthday ≤ 12 →
       1 ≤ day birthday ≤ 31 →
       match_classes municipality_pattern municipality = Some [] →
       ∃ code,
         build surname name birthday sex municipality = Ok code
         ∧ get_birthday code
           = Ok (fmt_0d 2 (day birthday) ++ lit "-"
                 ++ fmt_0d 2 (month birthday) ++ lit "-"
                 ++ fmt_0d 2 (year birthday mod 100))).
Proof.
  split.
  - intros. eapply get_birthday_of_built; eassumption.
  - intros surname name birthday sex municipality Hs Hn Hy Hm Hd Hmuni.
    destruct (build_ok surname name birthday sex municipality
                Hs Hn Hy Hm Hd Hmuni) as (code & Hb & _ & _).
    exists code. split; [exact Hb|].
    destruct (municipality_inv _ Hmuni) as (m0 & m1 & m2 & m3 & E & _).
    eapply get_birthday_of_built; [| | | | exact Hb];
      [lia | assumption | assumption | rewrite E; reflexivity].
Qed.

Lemma get_birthday_build_witness :
  get_birthday (lit "RCCMNL83S58D969L")
  = Ok (fmt_0d 2 (day rocca_birthday) ++ lit "-"
        ++ fmt_0d 2 (month rocca_birthday) ++ lit "-"
        ++ fmt_0d 2 (year rocca_birthday mod 100))
  ∧ ∃ code,
      build (lit "Rocca") (lit "Emanuele") rocca_birthday (lit "M")
            (lit "D969") = Ok code
      ∧ get_birthday code
        = Ok (fmt_0d 2 (day rocca_birthday) ++ lit "-"
              ++ fmt_0d 2 (month rocca_birthday) ++ lit "-"
              ++ fmt_0d 2 (year rocca_birthday mod 100)).
Proof.
  split.
  - apply (proj1 get_birthday_build (lit "Rocca") (lit "Emanuele")
             rocca_birthday (lit "F") (lit "D969")).
    + vm_compute. split; discriminate.
    + vm_compute. split; discriminate.
    + vm_compute. split; discriminate.
    + reflexivity.
    + vm_compute. reflexivity.
  - apply (proj2 get_birthday_build).
    + unfold encodable. vm_compute. lia.
    + right. unfold encodable. vm_compute. lia.
    + vm_compute. split; discriminate.
    + vm_compute. split; discriminate.
    + vm_compute. split; discriminate.
    + vm_compute. reflexivity.
Defined.

(** C8, refuted as stated: a person input within the preconditions of
    [build] as they are listed (text names, month 11, day 18, sex 'M',
    a 4-character municipality code) for which there is no round trip:
    [build] raises at its closing [assert isvalid(output)] and hands no
    code to [get_birthday]. *)
Lemma date_round_trip_unregistered_municipality :
  1 ≤ month rocca_birthday ≤ 12
  ∧ 1 ≤ day rocca_birthday ≤ 31
  ∧ length (lit "AAAA") = 4%nat
  ∧ ¬ ∃ code,
        build (lit "Rocca") (lit "Emanuele") rocca_birthday (lit "M")
              (lit "AAAA") = Ok code
        ∧ get_birthday code
          = Ok (fmt_0d 2 (day rocca_birthday) ++ lit "-"
                ++ fmt_0d 2 (month rocca_birthday) ++ lit "-"
                ++ fmt_0d 2 (year rocca_birthday mod 100)).
Proof.
  repeat split; try (vm_compute; discriminate).
  intros (code & Hb & _). vm_compute in Hb. discriminate.
Qed.

Example female_round_trip_doc :
  build (lit "Rocca") (lit "Emanuele") rocca_birthday (lit "F") (lit "D969")
  = Ok (lit "RCCMNL83S58D969L")
  ∧ get_birthday (lit "RCCMNL83S58D969L") = Ok (lit "18-11-83")
  ∧ get_sex (lit "RCCMNL83S58D969L") = Ok (lit "F").
Proof. repeat split; vm_compute; reflexivity. Qed.


(** * Further properties of the module *)

(** ** The outcomes of [control_code] *)

Lemma sum_step_code_char (k : nat) (acc : Z) (c : ascii) :
  is_code_char c = true →
  sum_step acc (Z.of_nat k, c) = Ok (acc + contribution k c).
Proof.
  intros Hc.
  pose proof (sum_loop [c] k acc (Forall_cons_2 _ _ _ Hc (Forall_nil_2 _))) as H.
  cbn [imap for_each foldr] in H. rewrite Nat.add_0_r, Z.add_0_r in H.
  destruct (sum_step acc (Z.of_nat k, c)) as [v|e]; cbn in H; congruence.
Qed.

Lemma sum_step_other_char (idx acc : Z) (c : ascii) :
  is_code_char c = false → sum_step acc (idx, c) = Raise KeyError.
Proof.
  intros Hc. unfold sum_step, dict_get.
  rewrite odd_table_lookup, even_table_lookup, Hc.
  destruct (idx mod 2 =? 0); reflexivity.
Qed.

Lemma sum_loop_other_char (s : str) : ∀ (k : nat) (acc : Z),
  forallb is_code_char s = false →
  for_each sum_step acc (imap (λ i x, (Z.of_nat (k + i), x)) s)
  = Raise KeyError.
Proof.
  induction s as [|c s IH]; intros k acc Hs; [discriminate|].
  cbn [forallb] in Hs. cbn [imap for_each].
  destruct (is_code_char c) eqn:Hc.
  - rewrite sum_step_code_char by assumption. cbn [mbind result_bind].
    rewrite (imap_ext _ (λ i x, (Z.of_nat (S k + i), x)) s)
      by (intros; simpl; do 2 f_equal; lia).
    apply IH. exact Hs.
  - rewrite sum_step_other_char by assumption. reflexivity.
Qed.

Lemma control_code_cases (s : str) :
  control_code s =
    if negb (length s =? 15)%nat then Raise AssertionError
    else if forallb is_code_char s then Ok (control_letter s)
    else Raise KeyError.
Proof.
  destruct (Nat.eqb_spec (length s) 15) as [Hlen|Hlen]; cbn [negb].
  - destruct (forallb is_code_char s) eqn:Hs.
    + apply control_code_correct; [exact Hlen|].
      apply Forall_forall. intros c Hc.
      rewrite List.forallb_forall in Hs. apply Hs, list_elem_of_In, Hc.
    + rewrite control_code_unfold, Hlen.
      cbn [Nat.eqb py_assert mbind result_bind]. unfold enumerate.
      pose proof (sum_loop_other_char s 0 0 Hs) as H. cbn [Nat.add] in H.
      rewrite H. reflexivity.
  - rewrite control_code_unfold.
    destruct (Nat.eqb_spec (length s) 15); [contradiction | reflexivity].
Qed.

(** X1. [control_code] has three outcomes: [AssertionError] when the
    input does not have 15 characters; otherwise [KeyError] when some
    character is neither a digit nor an upper-case letter (a lower-case
    letter, a blank); otherwise the control letter, which is an
    upper-case letter. *)
Theorem control_code_outcomes (s : str) :
  control_code s =
    (if negb (length s =? 15)%nat then Raise AssertionError
     else if forallb is_code_char s then Ok (control_letter s)
     else Raise KeyError)
  ∧ (∀ c, control_code s = Ok c → char_in c ascii_uppercase = true).
Proof.
  split; [apply control_code_cases|].
  intros c Hc. rewrite control_code_cases in Hc.
  destruct (negb (length s =? 15)%nat) eqn:Hlen; [discriminate|].
  destruct (forallb is_code_char s) eqn:Hs; [|discriminate].
  injection Hc as <-.
  apply negb_false_iff, Nat.eqb_eq in Hlen.
  apply (control_code_correct s Hlen).
  apply Forall_forall. intros x Hx.
  rewrite List.forallb_forall in Hs. apply Hs, list_elem_of_In, Hx.
Qed.

Lemma control_code_outcomes_witness :
  control_code (lit "RCCMNL83S18D969") = Ok "H"%char
  ∧ char_in "H" ascii_uppercase = true.
Proof.
  assert (H : control_code (lit "RCCMNL83S18D969") = Ok "H"%char)
    by (vm_compute; reflexivity).
  split; [exact H|].
  exact (proj2 (control_code_outcomes (lit "RCCMNL83S18D969")) _ H).
Defined.

(** ** Completing fifteen characters with a control character *)

Lemma matches_from_app (p q : str) : ∀ k,
  matches_from k (p ++ q)
  = matches_from k p && matches_from (k + length p) q.
Proof.
  induction p as [|c p IH]; intros k; cbn [app matches_from length].
  - rewrite Nat.add_0_r. reflexivity.
  - rewrite IH, andb_assoc. do 2 f_equal. lia.
Qed.

Lemma upper_app (p q : str) : upper (p ++ q) = upper p ++ upper q.
Proof. apply map_app. Qed.

Lemma isvalid_completion (s : str) (x : ascii) :
  length s = 15%nat →
  matches_from 0 (upper s) = true →
  isvalid (PyStr (s ++ [x]))
  = Ok (Ascii.eqb (upper_char x) (control_letter (upper s))).
Proof.
  intros Hlen Hm. rewrite isvalid_verdict. f_equal. unfold isvalid_spec.
  assert (Hu : length (upper s) = 15%nat) by (rewrite length_upper; exact Hlen).
  rewrite upper_app, length_app, Hlen. cbn [length Nat.add Nat.eqb andb upper map].
  rewrite matches_from_app, Hm, Hu. cbn [Nat.add matches_from andb].
  rewrite lookup_app_r by lia. rewrite Hu. cbn [Nat.sub lookup list_lookup].
  rewrite take_app_length' by (symmetry; exact Hu).
  change (position_class 15) with class_AZ. rewrite andb_true_r.
  destruct (Ascii.eqb_spec (upper_char x) (control_letter (upper s))) as [E|E].
  - rewrite E.
    rewrite (proj2 (control_code_correct (upper s) Hu
                      (matches_from_code_chars _ _ Hm))).
    reflexivity.
  - apply andb_false_r.
Qed.

(** X2. Fifteen characters whose upper-cased form fits the positional
    pattern are completed to a code that [isvalid] accepts by exactly
    one control character up to letter case: the one whose upper-cased
    form is the [control_code] of the upper-cased fifteen. *)
Theorem isvalid_iff_control_code (s : str) (x : ascii) :
  length s = 15%nat →
  matches_from 0 (upper s) = true →
  isvalid (PyStr (s ++ [x])) = Ok true
  ↔ control_code (upper s) = Ok (upper_char x).
Proof.
  intros Hlen Hm. rewrite isvalid_completion by assumption.
  assert (Hu : length (upper s) = 15%nat) by (rewrite length_upper; exact Hlen).
  rewrite (proj1 (control_code_correct (upper s) Hu
                    (matches_from_code_chars _ _ Hm))).
  split.
  - intros [= H]. apply Ascii.eqb_eq in H. congruence.
  - intros [= H]. rewrite H, Ascii.eqb_refl. reflexivity.
Qed.

Lemma isvalid_iff_control_code_witness :
  isvalid (PyStr (lit "rccmnl83s18d969" ++ ["h"%char])) = Ok true
  ↔ control_code (upper (lit "rccmnl83s18d969")) = Ok (upper_char "h").
Proof.
  apply isvalid_iff_control_code; vm_compute; reflexivity.
Defined.

(** ** Detection of a single substituted character *)

Lemma sum_app (l1 l2 : list Z) :
  foldr Z.add 0 (l1 ++ l2) = foldr Z.add 0 l1 + foldr Z.add 0 l2.
Proof. induction l1 as [|x l1 IH]; cbn [app foldr]; lia. Qed.

Lemma control_sum_substitute (p q : str) (a b : ascii) :
  control_sum (p ++ a :: q) - control_sum (p ++ b :: q)
  = contribution (length p) a - contribution (length p) b.
Proof.
  unfold control_sum. rewrite !imap_app, !sum_app. cbn [imap foldr].
  rewrite !Nat.add_0_r. lia.
Qed.

Lemma matches_from_middle (p q : str) (a : ascii) (k : nat) :
  matches_from k (p ++ a :: q) = true →
  char_in a (position_class (k + length p)) = true.
Proof.
  rewrite matches_from_app. cbn [matches_from]. intros H.
  apply andb_true_iff in H as [_ H]. apply andb_true_iff in H as [H _].
  exact H.
Qed.

Lemma char_in_In (c : ascii) (l : str) : char_in c l = true → In c l.
Proof.
  unfold char_in. intros H. apply existsb_exists in H as (x & Hx & E).
  apply Ascii.eqb_eq in E. congruence.
Qed.

Lemma alphabet_nth_inj (m n : Z) :
  0 ≤ m < 26 → 0 ≤ n < 26 →
  nth (Z.to_nat m) ascii_uppercase "A"%char
  = nth (Z.to_nat n) ascii_uppercase "A"%char →
  m = n.
Proof.
  intros Hm Hn E.
  pose (P := λ m, forallb
                    (λ n, implb
                            (Ascii.eqb (nth (Z.to_nat m) ascii_uppercase "A"%char)
                                       (nth (Z.to_nat n) ascii_uppercase "A"%char))
                            (m =? n))
                    (seqZ 0 26)).
  assert (H : P m = true).
  { apply (forall_range P 0 26); [vm_compute; reflexivity | lia]. }
  unfold P in H.
  pose proof (forall_range _ 0 26 H n ltac:(lia)) as G. cbn beta in G.
  rewrite E, Ascii.eqb_refl in G. cbn [implb] in G.
  apply Z.eqb_eq. exact G.
Qed.

(** Within the class of a position, two characters with the same
    contribution modulo 26 are the same character. *)
Lemma contribution_inj (i : nat) (a b : ascii) :
  (i < 15)%nat →
  char_in a (position_class i) = true →
  char_in b (position_class i) = true →
  (contribution i a - contribution i b) mod 26 = 0 →
  a = b.
Proof.
  intros Hi Ha Hb E.
  pose (P := λ i : Z,
          forallb
            (λ a, forallb
                    (λ b, implb ((contribution (Z.to_nat i) a
                                  - contribution (Z.to_nat i) b) mod 26 =? 0)
                                (Ascii.eqb a b))
                    (position_class (Z.to_nat i)))
            (position_class (Z.to_nat i))).
  assert (H : P (Z.of_nat i) = true).
  { apply (forall_range P 0 15); [vm_compute; reflexivity | lia]. }
  unfold P in H. rewrite Nat2Z.id in H.
  rewrite List.forallb_forall in H.
  specialize (H a (char_in_In _ _ Ha)).
  rewrite List.forallb_forall in H.
  specialize (H b (char_in_In _ _ Hb)).
  rewrite E in H. cbn [Z.eqb implb] in H.
  apply Ascii.eqb_eq. exact H.
Qed.

Lemma mod_eq_sub (x y : Z) : x mod 26 = y mod 26 → (x - y) mod 26 = 0.
Proof.
  intros H. rewrite Zminus_mod, H, Z.sub_diag. reflexivity.
Qed.

Lemma isvalid_spec_inv (s : str) :
  isvalid (PyStr s) = Ok true →
  length (upper s) = 16%nat
  ∧ matches_from 0 (upper s) = true
  ∧ ∃ last, upper s !! 15%nat = Some last
            ∧ last = control_letter (take 15 (upper s)).
Proof.
  rewrite isvalid_verdict. intros [= H]. unfold isvalid_spec in H.
  apply andb_true_iff in H as [H H3]. apply andb_true_iff in H as [H1 H2].
  apply Nat.eqb_eq in H1. rewrite length_upper.
  split; [exact H1 | split; [exact H2|]].
  destruct (upper s !! 15%nat) as [last|]; [|discriminate].
  exists last. split; [reflexivity|]. apply Ascii.eqb_eq. exact H3.
Qed.

(** X3. The control character detects every substitution of a single
    character: two texts that [isvalid] accepts and that differ at one
    position only differ there by letter case at most. *)
Theorem single_substitution_detected (p q : str) (a b : ascii) :
  isvalid (PyStr (p ++ a :: q)) = Ok true →
  isvalid (PyStr (p ++ b :: q)) = Ok true →
  upper_char a = upper_char b.
Proof.
  intros H1 H2.
  apply isvalid_spec_inv in H1 as (L1 & M1 & z1 & Z1 & C1).
  apply isvalid_spec_inv in H2 as (L2 & M2 & z2 & Z2 & C2).
  rewrite upper_app in *. cbn [upper map] in *.
  fold (upper q) in *.
  set (P := upper p) in *. set (Q := upper q) in *.
  clearbody P Q. clear p q.
  destruct Q as [|z Q' _] using rev_ind.
  - (* the substituted character is the control character itself *)
    assert (HP : length P = 15%nat)
      by (rewrite length_app in L1; cbn [length] in L1; lia).
    rewrite take_app_length' in C1, C2 by (symmetry; exact HP).
    rewrite lookup_app_r in Z1, Z2 by lia.
    rewrite HP in Z1, Z2. cbn in Z1, Z2. congruence.
  - assert (HP : (length P + length Q' = 14)%nat).
    { rewrite !length_app in L1. cbn [length] in L1.
      rewrite length_app in L1. cbn [length] in L1. lia. }
    change (P ++ upper_char a :: Q' ++ [z])
      with (P ++ (upper_char a :: Q') ++ [z]) in *.
    change (P ++ upper_char b :: Q' ++ [z])
      with (P ++ (upper_char b :: Q') ++ [z]) in *.
    rewrite app_assoc in *.
    assert (La : length (P ++ upper_char a :: Q') = 15%nat)
      by (rewrite length_app; cbn [length]; lia).
    assert (Lb : length (P ++ upper_char b :: Q') = 15%nat)
      by (rewrite length_app; cbn [length]; lia).
    rewrite take_app_length' in C1 by (symmetry; exact La).
    rewrite take_app_length' in C2 by (symmetry; exact Lb).
    rewrite lookup_app_r in Z1 by lia. rewrite lookup_app_r in Z2 by lia.
    rewrite La in Z1. rewrite Lb in Z2. cbn in Z1, Z2.
    assert (E : control_letter (P ++ upper_char a :: Q')
                = control_letter (P ++ upper_char b :: Q')) by congruence.
    unfold control_letter in E.
    apply alphabet_nth_inj in E; try (apply Z.mod_pos_bound; lia).
    apply mod_eq_sub in E. rewrite control_sum_substitute in E.
    rewrite matches_from_app in M1, M2.
    apply andb_true_iff in M1 as [M1 _]. apply andb_true_iff in M2 as [M2 _].
    apply matches_from_middle in M1, M2. cbn [Nat.add] in M1, M2.
    apply (contribution_inj (length P)); [lia | assumption | assumption | exact E].
Qed.

Lemma single_substitution_detected_witness :
  upper_char "S" = upper_char "s".
Proof.
  apply (single_substitution_detected (lit "RCCMNL83") (lit "18D969H"));
    vm_compute; reflexivity.
Defined.

(** ** The outcomes of the triplets *)

Lemma append_vowels_cases (stopat : nat) (vowels : str) : ∀ output,
  append_vowels stopat output vowels =
    if (stopat <=? length output + length vowels)%nat
    then Ok (output ++ take (stopat - length output) vowels)
    else Raise IndexError.
Proof.
  induction vowels as [|v vs IH]; intros output; cbn [append_vowels length].
  - destruct (Nat.ltb_spec (length output) stopat);
      destruct (Nat.leb_spec stopat (length output + 0)); try lia.
    + reflexivity.
    + rewrite take_nil, app_nil_r. reflexivity.
  - destruct (Nat.ltb_spec (length output) stopat).
    + rewrite IH, length_app. cbn [length].
      replace (length output + 1 + length vs)%nat
        with (length output + S (length vs))%nat by lia.
      destruct (stopat <=? length output + S (length vs))%nat; [|reflexivity].
      replace (stopat - length output)%nat
        with (S (stopat - (length output + 1)))%nat by lia.
      cbn [take]. rewrite <- app_assoc. reflexivity.
    + destruct (Nat.leb_spec stopat (length output + S (length vs))); [|lia].
      replace (stopat - length output)%nat with 0%nat by lia.
      cbn [take]. rewrite app_nil_r. reflexivity.
Qed.

Lemma letter_count_le (s : str) : (letter_count s ≤ length s)%nat.
Proof. unfold letter_count. apply length_filter. Qed.

Lemma surname_triplet_cases (s : str) :
  __surname_triplet s =
    if (letters_needed s <=? letter_count s)%nat
    then Ok (take 3 (consonants_of s ++ vowels_of s ++ lit "X"))
    else Raise IndexError.
Proof.
  rewrite surname_triplet_unfold. unfold __common_triplet.
  fold (letters_needed s). rewrite append_vowels_cases.
  destruct (consonants_and_vowels_letters s) as (Hn & _ & _).
  pose proof (letter_count_le s) as Hle.
  set (cs := consonants_of s) in *. set (vs := vowels_of s) in *.
  rewrite Hn.
  destruct (Nat.leb_spec (letters_needed s) (letter_count s)) as [He|He];
    [|reflexivity].
  cbn [mbind result_bind]. f_equal.
  unfold letters_needed in *.
  destruct (Nat.ltb_spec 2 (length s)) as [Hlong|Hshort].
  - (* three characters are asked for *)
    assert (Hout : (3 ≤ length (cs ++ take (3 - length cs) vs))%nat).
    { rewrite length_app, length_take. lia. }
    destruct (Nat.eqb_spec (length (cs ++ take (3 - length cs) vs)) 2);
      [lia|].
    rewrite app_assoc, (take_app_le (cs ++ vs)) by (rewrite length_app; lia).
    rewrite !take_app, take_take. do 2 f_equal. lia.
  - (* a surname of two letters *)
    assert (Hvs : take (2 - length cs) vs = vs) by (apply take_ge; lia).
    rewrite Hvs.
    assert (Hout : length (cs ++ vs) = 2%nat) by (rewrite length_app; lia).
    rewrite Hout. cbn [Nat.eqb]. rewrite <- app_assoc. reflexivity.
Qed.

(** X4. The surname triplet in closed form: when the surname has the
    letters the loop asks for (three, or two for a surname of at most
    two characters), the triplet is made of the first three characters
    of its consonants, followed by its vowels, followed by 'X';
    otherwise [__surname_triplet] raises [IndexError]. A triplet that
    is returned is made of three upper-case letters. *)
Theorem surname_triplet_outcomes (s : str) :
  __surname_triplet s =
    (if (letters_needed s <=? letter_count s)%nat
     then Ok (take 3 (consonants_of s ++ vowels_of s ++ lit "X"))
     else Raise IndexError)
  ∧ (∀ t, __surname_triplet s = Ok t →
          length t = 3%nat
          ∧ Forall (λ c, char_in c ascii_uppercase = true) t).
Proof.
  split; [apply surname_triplet_cases|].
  intros t Ht. pose proof Ht as Hc. rewrite surname_triplet_cases in Hc.
  destruct (Nat.leb_spec (letters_needed s) (letter_count s)) as [He|He];
    [|discriminate].
  destruct (surname_triplet_ok s He) as (t' & Ht' & Hlen & HAZ).
  rewrite Ht in Ht'. injection Ht' as <-. split; assumption.
Qed.

Lemma surname_triplet_outcomes_witness :
  length (lit "RCC") = 3%nat
  ∧ Forall (λ c, char_in c ascii_uppercase = true) (lit "RCC").
Proof.
  apply (proj2 (surname_triplet_outcomes (lit "Rocca"))).
  vm_compute. reflexivity.
Defined.

(** X5. The given-name triplet returns three upper-case letters when
    the name is empty or has the letters the loop asks for, and raises
    [IndexError] on every other name. *)
Theorem name_triplet_outcomes (name : str) :
  (name = [] ∨ encodable name →
   ∃ t, __name_triplet name = Ok t ∧ length t = 3%nat
        ∧ Forall (λ c, char_in c ascii_uppercase = true) t)
  ∧ (name ≠ [] → ¬ encodable name →
     __name_triplet name = Raise IndexError).
Proof.
  split.
  - intros H. destruct (name_triplet_ok name H) as (t & Ht & Hlen & HAZ).
    exists t. repeat split; assumption.
  - intros Hne Henc. unfold encodable in Henc.
    rewrite name_triplet_unfold, bool_decide_eq_false_2 by assumption.
    destruct (consonants_and_vowels_letters name) as (Hn & _ & _).
    destruct (Nat.ltb_spec 3 (length (consonants_of name))) as [Hgt|Hle].
    + unfold letters_needed in Henc.
      destruct (2 <? length name)%nat; lia.
    + pose proof (surname_triplet_cases name) as Hs.
      rewrite surname_triplet_unfold in Hs. rewrite Hs.
      destruct (Nat.leb_spec (letters_needed name) (letter_count name));
        [lia | reflexivity].
Qed.

Lemma name_triplet_outcomes_witness :
  (∃ t, __name_triplet (lit "Emanuele") = Ok t ∧ length t = 3%nat
        ∧ Forall (λ c, char_in c ascii_uppercase = true) t)
  ∧ __name_triplet (lit "E.") = Raise IndexError.
Proof.
  split.
  - apply (proj1 (name_triplet_outcomes (lit "Emanuele"))).
    right. unfold encodable. vm_compute. lia.
  - apply (proj2 (name_triplet_outcomes (lit "E."))).
    + discriminate.
    + unfold encodable. vm_compute. lia.
Defined.

(** ** When the decoders return *)

Lemma decoder_assert (code : str) :
  isvalid (PyStr code) = Ok false →
  get_birthday code = Raise AssertionError
  ∧ get_sex code = Raise AssertionError.
Proof.
  intros H. unfold get_birthday, get_sex. rewrite H. split; reflexivity.
Qed.

Lemma omocodia_value_upper (c : ascii) (v : Z) :
  omocodia_value c = Some v → upper_char c = c.
Proof.
  assert (G : match omocodia_value c with
              | Some _ => Ascii.eqb (upper_char c) c
              | None => true
              end = true) by by_all_ascii c.
  intros H. rewrite H in G. apply Ascii.eqb_eq. exact G.
Qed.

Lemma month_index_upper (c : ascii) (i : Z) :
  py_index MONTHSCODE c = Ok i → upper_char c = c.
Proof.
  assert (G : match py_index MONTHSCODE c with
              | Ok _ => Ascii.eqb (upper_char c) c
              | Raise _ => true
              end = true) by by_all_ascii c.
  intros H. rewrite H in G. apply Ascii.eqb_eq. exact G.
Qed.

Lemma dict_get_Ok (d : gmap ascii Z) (c : ascii) (v : Z) :
  dict_get d c = Ok v → d !! c = Some v.
Proof. unfold dict_get. destruct (d !! c); [congruence | discriminate]. Qed.

(** X6. [get_birthday] returns a string exactly on the codes that
    [isvalid] accepts and that hold no lower-case letter among their
    year, month and day characters (positions 7 to 11); on a code that
    [isvalid] rejects it raises [AssertionError]. *)
Theorem get_birthday_returns_iff (code : str) :
  ((∃ s, get_birthday code = Ok s)
   ↔ isvalid (PyStr code) = Ok true
     ∧ upper (date_field code) = date_field code)
  ∧ (isvalid (PyStr code) = Ok false →
     get_birthday code = Raise AssertionError).
Proof.
  split; [split|].
  - intros [s Hs].
    destruct (isvalid_spec (PyStr code)) eqn:Hv.
    + assert (Hvalid : isvalid (PyStr code) = Ok true)
        by (rewrite isvalid_verdict, Hv; reflexivity).
      split; [exact Hvalid|].
      destruct (length_16_inv code (isvalid_length _ Hvalid))
        as (c0 & c1 & c2 & c3 & c4 & c5 & c6 & c7 & c8 & c9 & c10 & c11
            & c12 & c13 & c14 & c15 & ->).
      rewrite get_birthday_16 in Hs by exact Hvalid.
      destruct (dict_get day_year_charmap c9) as [d1|] eqn:E9; [|discriminate].
      destruct (dict_get day_year_charmap c10) as [d2|] eqn:E10;
        [|discriminate].
      destruct (py_index MONTHSCODE c8) as [i|] eqn:E8; [|discriminate].
      destruct (dict_get day_year_charmap c6) as [y1|] eqn:E6; [|discriminate].
      destruct (dict_get day_year_charmap c7) as [y2|] eqn:E7; [|discriminate].
      apply dict_get_Ok in E9, E10, E6, E7.
      rewrite day_year_charmap_lookup in E9, E10, E6, E7.
      cbn [date_field take drop upper map].
      rewrite (omocodia_value_upper _ _ E6), (omocodia_value_upper _ _ E7),
        (omocodia_value_upper _ _ E9), (omocodia_value_upper _ _ E10),
        (month_index_upper _ _ E8).
      reflexivity.
    + assert (Hinvalid : isvalid (PyStr code) = Ok false)
        by (rewrite isvalid_verdict, Hv; reflexivity).
      rewrite (proj1 (decoder_assert code Hinvalid)) in Hs. discriminate.
  - intros [Hv Hup].
    destruct (get_birthday_upper_date code Hv Hup)
      as (c6 & c7 & c8 & c9 & c10 & d1 & d2 & i & y1 & y2 & _ & _ & _ & _
          & _ & _ & _ & _ & _ & ->).
    eauto.
  - intros H. apply decoder_assert. exact H.
Qed.

Lemma get_birthday_returns_iff_witness :
  get_birthday (lit "RCCMNL83S18D969") = Raise AssertionError.
Proof.
  apply (proj2 (get_birthday_returns_iff (lit "RCCMNL83S18D969"))).
  vm_compute. reflexivity.
Defined.

Lemma day_char_class (c : ascii) :
  char_in (upper_char c) class_digit_omocodia = true →
  is_blank c = false ∧ c ≠ "-"%char ∧ c ≠ "+"%char.
Proof.
  assert (G : implb (char_in (upper_char c) class_digit_omocodia)
                (negb (is_blank c) && negb (Ascii.eqb c "-")
                 && negb (Ascii.eqb c "+")) = true) by by_all_ascii c.
  intros H. rewrite H in G. cbn [implb] in G.
  apply andb_true_iff in G as [G G3]. apply andb_true_iff in G as [G1 G2].
  apply negb_true_iff in G1, G2, G3.
  repeat split; [exact G1 | |]; intros ->; discriminate.
Qed.

Lemma py_int_day_field (a b : ascii) :
  char_in (upper_char a) class_digit_omocodia = true →
  char_in (upper_char b) class_digit_omocodia = true →
  py_int [a; b] =
    if is_digit a && is_digit b
    then Ok (ordinal a digits * 10 + ordinal b digits)
    else Raise ValueError.
Proof.
  intros Ha Hb.
  destruct (is_digit a && is_digit b) eqn:Hd.
  - apply andb_true_iff in Hd as [Hda Hdb].
    apply py_int_two_digits; assumption.
  - destruct (day_char_class a Ha) as (Ba & Ma & Pa).
    destruct (day_char_class b Hb) as (Bb & _ & _).
    assert (Hs : strip [a; b] = [a; b]).
    { unfold strip. cbn [lstrip]. rewrite Ba. cbn [rev app lstrip].
      rewrite Bb. reflexivity. }
    unfold py_int. rewrite Hs.
    assert (He : py_int_digits [a; b] = Raise ValueError).
    { unfold py_int_digits. cbn [forallb]. rewrite andb_true_r, Hd.
      reflexivity. }
    destruct a as [[] [] [] [] [] [] [] []]; try exact He; congruence.
Qed.

(** X7. On a code that [isvalid] accepts, [get_sex] returns "M" or "F"
    when both day characters are decimal digits ("M" when their value
    is below 32) and raises [ValueError] when one of them is a letter;
    on a code that [isvalid] rejects it raises [AssertionError]. *)
Theorem get_sex_outcomes (code : str) :
  (isvalid (PyStr code) = Ok true →
   ∃ a b, take 2 (drop 9 code) = [a; b]
          ∧ get_sex code =
              if is_digit a && is_digit b
              then Ok (if ordinal a digits * 10 + ordinal b digits <? 32
                       then lit "M" else lit "F")
              else Raise ValueError)
  ∧ (isvalid (PyStr code) = Ok false →
     get_sex code = Raise AssertionError).
Proof.
  split.
  - intros Hv.
    destruct (length_16_inv code (isvalid_length _ Hv))
      as (c0 & c1 & c2 & c3 & c4 & c5 & c6 & c7 & c8 & c9 & c10 & c11
          & c12 & c13 & c14 & c15 & ->).
    destruct (isvalid_date_classes _ _ _ _ _ _ _ _ _ _ _ _ _ _ _ _ Hv)
      as (_ & _ & _ & H9 & H10).
    exists c9, c10. split; [reflexivity|].
    unfold get_sex. rewrite Hv. cbn [mbind result_bind py_assert take drop].
    rewrite (py_int_day_field c9 c10 H9 H10).
    destruct (is_digit c9 && is_digit c10); reflexivity.
  - intros H. apply decoder_assert. exact H.
Qed.

Lemma get_sex_outcomes_witness :
  (∃ a b, take 2 (drop 9 (lit "RCCMNL83S1UD969E")) = [a; b]
          ∧ get_sex (lit "RCCMNL83S1UD969E") =
              if is_digit a && is_digit b
              then Ok (if ordinal a digits * 10 + ordinal b digits <? 32
                       then lit "M" else lit "F")
              else Raise ValueError)
  ∧ get_sex (lit "RCCMNL83S18D969") = Raise AssertionError.
Proof.
  split.
  - apply (proj1 (get_sex_outcomes (lit "RCCMNL83S1UD969E"))).
    vm_compute. reflexivity.
  - apply (proj2 (get_sex_outcomes (lit "RCCMNL83S18D969"))).
    vm_compute. reflexivity.
Defined.

(** ** What [build] returns *)

Lemma build_inv surname name birthday sex municipality code :
  build surname name birthday sex municipality = Ok code →
  ∃ s n m cc,
    __surname_triplet surname = Ok s
    ∧ __name_triplet name = Ok n
    ∧ py_getitem MONTHSCODE (month birthday - 1) = Ok m
    ∧ control_code
        (((((s ++ n) ++ drop 2 (py_str (year birthday))) ++ [m])
            ++ fmt_0d 2 (day_code sex (day birthday))) ++ municipality)
      = Ok cc
    ∧ isvalid (PyStr code) = Ok true
    ∧ code = (((((s ++ n) ++ drop 2 (py_str (year birthday))) ++ [m])
                 ++ fmt_0d 2 (day_code sex (day birthday))) ++ municipality)
             ++ [cc].
Proof.
  rewrite build_unfold. intros Hb.
  destruct (__surname_triplet surname) as [s|]; [|discriminate].
  destruct (__name_triplet name) as [n|]; [|discriminate].
  destruct (py_getitem MONTHSCODE (month birthday - 1)) as [m|];
    [|discriminate].
  cbn [mbind result_bind] in Hb.
  destruct (control_code _) as [cc|] eqn:Ecc; [|discriminate].
  cbn [mbind result_bind] in Hb.
  destruct (isvalid _) as [[|]|] eqn:Ev; try discriminate.
  cbn [mbind result_bind py_assert] in Hb. injection Hb as <-.
  exists s, n, m, cc. repeat split; assumption.
Qed.

Lemma build_code_chars surname name birthday sex municipality code :
  build surname name birthday sex municipality = Ok code →
  length code = 16%nat ∧ Forall (λ c, is_code_char c = true) code.
Proof.
  intros Hb.
  destruct (build_inv _ _ _ _ _ _ Hb) as (s & n & m & cc & _ & _ & _ & Hcc
                                          & Hv & ->).
  split; [apply isvalid_length; exact Hv|].
  rewrite control_code_cases in Hcc.
  destruct (negb (length _ =? 15)%nat) eqn:Hlen; [discriminate|].
  destruct (forallb is_code_char _) eqn:Hs; [|discriminate].
  injection Hcc as <-.
  apply negb_false_iff, Nat.eqb_eq in Hlen.
  assert (Hout : Forall (λ c, is_code_char c = true)
                   (((((s ++ n) ++ drop 2 (py_str (year birthday))) ++ [m])
                       ++ fmt_0d 2 (day_code sex (day birthday)))
                      ++ municipality)).
  { apply Forall_forall. intros x Hx.
    rewrite List.forallb_forall in Hs. apply Hs, list_elem_of_In, Hx. }
  apply Forall_app. split; [exact Hout|].
  constructor; [|constructor].
  apply class_AZ_code_char, (control_code_correct _ Hlen Hout).
Qed.

(** X8. Every code that [build] returns has 16 characters, all of them
    digits or upper-case letters, so that it is its own upper-cased
    form, and [get_birthday] returns a string on it. *)
Theorem build_returns_canonical_code
    (surname name : str) (birthday : date) (sex municipality code : str) :
  build surname name birthday sex municipality = Ok code →
  length code = 16%nat
  ∧ Forall (λ c, is_code_char c = true) code
  ∧ upper code = code
  ∧ ∃ s, get_birthday code = Ok s.
Proof.
  intros Hb.
  destruct (build_code_chars _ _ _ _ _ _ Hb) as [Hlen Hchars].
  destruct (build_inv _ _ _ _ _ _ Hb) as (_ & _ & _ & _ & _ & _ & _ & _
                                          & Hv & _).
  pose proof (upper_code_chars code Hchars) as Hup.
  repeat split; try assumption.
  assert (Hd : upper (date_field code) = date_field code).
  { apply upper_code_chars. unfold date_field.
    apply Forall_take, Forall_drop, Hchars. }
  destruct (get_birthday_upper_date code Hv Hd)
    as (c6 & c7 & c8 & c9 & c10 & d1 & d2 & i & y1 & y2 & _ & _ & _ & _
        & _ & _ & _ & _ & _ & ->).
  eauto.
Qed.

Lemma build_returns_canonical_code_witness :
  length (lit "RCCMNL83S18D969H") = 16%nat
  ∧ Forall (λ c, is_code_char c = true) (lit "RCCMNL83S18D969H")
  ∧ upper (lit "RCCMNL83S18D969H") = lit "RCCMNL83S18D969H"
  ∧ ∃ s, get_birthday (lit "RCCMNL83S18D969H") = Ok s.
Proof.
  apply (build_returns_canonical_code (lit "Rocca") (lit "Emanuele")
           rocca_birthday (lit "M") (lit "D969")).
  vm_compute. reflexivity.
Defined.

Lemma consonants_and_vowels_upper (s : str) :
  __consonants_and_vowels (upper s) = __consonants_and_vowels s.
Proof. unfold __consonants_and_vowels. rewrite upper_idem. reflexivity. Qed.

Lemma surname_triplet_upper (s : str) :
  __surname_triplet (upper s) = __surname_triplet s.
Proof.
  rewrite !surname_triplet_unfold. unfold __common_triplet, consonants_of,
    vowels_of.
  rewrite consonants_and_vowels_upper, length_upper. reflexivity.
Qed.

Lemma name_triplet_upper (s : str) :
  __name_triplet (upper s) = __name_triplet s.
Proof.
  rewrite !name_triplet_unfold. unfold __common_triplet, consonants_of,
    vowels_of.
  rewrite consonants_and_vowels_upper, length_upper.
  destruct s; reflexivity.
Qed.

(** X9. [build] does not depend on the letter case of the surname and
    of the given name: the names and their upper-cased forms give the
    same outcome. *)
Theorem build_case_insensitive
    (surname name : str) (birthday : date) (sex municipality : str) :
  build (upper surname) (upper name) birthday sex municipality
  = build surname name birthday sex municipality.
Proof.
  rewrite !build_unfold, surname_triplet_upper, name_triplet_upper.
  reflexivity.
Qed.

Lemma year_suffix_length (y : Z) :
  1 ≤ y ≤ 9999 → length (drop 2 (py_str y)) = 2%nat → 1000 ≤ y.
Proof.
  intros Hy Hlen.
  pose (P := λ y, implb (length (drop 2 (py_str y)) =? 2)%nat (1000 <=? y)).
  assert (H : P y = true).
  { apply (forall_range P 1 9999); [vm_compute; reflexivity | lia]. }
  unfold P in H. rewrite Hlen in H. cbn [Nat.eqb implb] in H.
  apply Z.leb_le. exact H.
Qed.

(** The characters of a code that [build] returns for a date and a
    4-character municipality code. *)
Lemma build_explicit surname name birthday sex municipality code :
  1 ≤ year birthday ≤ 9999 →
  1 ≤ month birthday ≤ 12 →
  1 ≤ day birthday ≤ 31 →
  length municipality = 4%nat →
  build surname name birthday sex municipality = Ok code →
  ∃ s0 s1 s2 n0 n1 n2 y0 y1 m d0 d1 m0 m1 m2 m3 cc,
    code = [s0; s1; s2; n0; n1; n2; y0; y1; m; d0; d1; m0; m1; m2; m3; cc]
    ∧ municipality = [m0; m1; m2; m3]
    ∧ __surname_triplet surname = Ok [s0; s1; s2]
    ∧ __name_triplet name = Ok [n0; n1; n2]
    ∧ 1000 ≤ year birthday
    ∧ char_in d0 digits = true ∧ char_in d1 digits = true
    ∧ ordinal d0 digits * 10 + ordinal d1 digits
      = day_code sex (day birthday)
    ∧ isvalid (PyStr code) = Ok true.
Proof.
  intros Hy Hm Hd Hmuni Hb.
  destruct (build_inv _ _ _ _ _ _ Hb) as (s & n & m & cc & Es & En & _ & Hcc
                                          & Hv & Hcode).
  destruct (length_3_inv _ (surname_triplet_length _ _ Es))
    as (s0 & s1 & s2 & ->).
  destruct (length_3_inv _ (name_triplet_length _ _ En))
    as (n0 & n1 & n2 & ->).
  destruct (day_code_range sex _ Hd) as [Hrange _].
  destruct (two_digits_of_inv _ _ (day_field _ Hrange))
    as (d0 & d1 & Edd & Hd0 & Hd1 & Hdv).
  rewrite Edd in Hcc, Hcode.
  destruct (length_4_inv _ Hmuni) as (m0 & m1 & m2 & m3 & ->).
  apply control_code_length in Hcc.
  assert (Hlen : length (drop 2 (py_str (year birthday))) = 2%nat).
  { rewrite !length_app in Hcc. cbn [length] in Hcc. lia. }
  destruct (two_digits_of_inv _ _
              (year_suffix (year birthday) Hy (or_intror Hlen)))
    as (y0 & y1 & Eyy & _ & _ & _).
  rewrite Eyy in Hcode. cbn [app] in Hcode.
  exists s0, s1, s2, n0, n1, n2, y0, y1, m, d0, d1, m0, m1, m2, m3, cc.
  repeat split; try assumption; try reflexivity.
  apply year_suffix_length; assumption.
Qed.

(** X10. Sex round trip: on a code that [build] returns for a birth
    date (year 1..9999, month 1..12, day 1..31) and a 4-character
    municipality code, [get_sex] returns "M" when the sex given to
    [build] is the string "M" and "F" for every other value. *)
Theorem get_sex_build
    (surname name : str) (birthday : date) (sex municipality code : str) :
  1 ≤ year birthday ≤ 9999 →
  1 ≤ month birthday ≤ 12 →
  1 ≤ day birthday ≤ 31 →
  length municipality = 4%nat →
  build surname name birthday sex municipality = Ok code →
  get_sex code = Ok (if bool_decide (sex = lit "M") then lit "M" else lit "F").
Proof.
  intros Hy Hm Hd Hmuni Hb.
  destruct (build_explicit _ _ _ _ _ _ Hy Hm Hd Hmuni Hb)
    as (s0 & s1 & s2 & n0 & n1 & n2 & y0 & y1 & m & d0 & d1 & m0 & m1 & m2
        & m3 & cc & -> & _ & _ & _ & _ & Hd0 & Hd1 & Hdv & Hv).
  rewrite (get_sex_digits _ d0 d1 Hv eq_refl Hd0 Hd1), Hdv.
  unfold day_code. f_equal.
  destruct (bool_decide (sex = lit "M")); cbn [andb].
  - destruct (Z.eqb_spec (day birthday) 0); [lia|]. cbn [negb].
    destruct (Z.ltb_spec (day birthday) 32); [reflexivity | lia].
  - destruct (Z.ltb_spec (40 + day birthday) 32); [lia | reflexivity].
Qed.

Lemma get_sex_build_witness :
  get_sex (lit "RCCMNL83S58D969L")
  = Ok (if bool_decide (lit "f" = lit "M") then lit "M" else lit "F").
Proof.
  apply (get_sex_build (lit "Rocca") (lit "Emanuele") rocca_birthday
           (lit "f") (lit "D969")).
  - vm_compute. split; discriminate.
  - vm_compute. split; discriminate.
  - vm_compute. split; discriminate.
  - reflexivity.
  - vm_compute. reflexivity.
Defined.

(** X11. For a birth date (year 1..9999, month 1..12, day 1..31) and a
    4-character municipality code, [build] returns a code exactly when
    the surname has the letters its triplet asks for, the given name is
    empty or has them likewise, the year has four digits and the
    municipality code is an upper-case letter followed by three
    characters among the digits and L, M, N, P, Q, R, S, T, U, V; on
    every other input it raises. *)
Theorem build_returns_iff
    (surname name : str) (birthday : date) (sex municipality : str) :
  1 ≤ year birthday ≤ 9999 →
  1 ≤ month birthday ≤ 12 →
  1 ≤ day birthday ≤ 31 →
  length municipality = 4%nat →
  (∃ code, build surname name birthday sex municipality = Ok code)
  ↔ encodable surname
    ∧ (name = [] ∨ encodable name)
    ∧ 1000 ≤ year birthday
    ∧ match_classes municipality_pattern municipality = Some [].
Proof.
  intros Hy Hm Hd Hmuni. split.
  - intros [code Hb].
    destruct (build_code_chars _ _ _ _ _ _ Hb) as [_ Hchars].
    destruct (build_explicit _ _ _ _ _ _ Hy Hm Hd Hmuni Hb)
      as (s0 & s1 & s2 & n0 & n1 & n2 & y0 & y1 & m & d0 & d1 & m0 & m1 & m2
          & m3 & cc & -> & -> & Es & En & Hyear & _ & _ & _ & Hv).
    repeat split.
    + unfold encodable. rewrite surname_triplet_cases in Es.
      destruct (Nat.leb_spec (letters_needed surname) (letter_count surname));
        [assumption | discriminate].
    + destruct (decide (name = [])) as [|Hne]; [left; assumption | right].
      unfold encodable.
      destruct (le_lt_dec (letters_needed name) (letter_count name))
        as [|Hlt]; [assumption|].
      rewrite name_triplet_unfold, bool_decide_eq_false_2 in En
        by assumption.
      destruct (consonants_and_vowels_letters name) as (Hn & _ & _).
      destruct (Nat.ltb_spec 3 (length (consonants_of name))).
      * unfold letters_needed in Hlt. destruct (2 <? length name)%nat; lia.
      * pose proof (surname_triplet_cases name) as Hs.
        rewrite surname_triplet_unfold in Hs. rewrite Hs in En.
        destruct (Nat.leb_spec (letters_needed name) (letter_count name));
          [lia | discriminate].
    + exact Hyear.
    + apply isvalid_spec_inv in Hv as (_ & Hmatch & _).
      rewrite (upper_code_chars _ Hchars) in Hmatch.
      cbn [matches_from] in Hmatch.
      cbv [position_class Nat.ltb Nat.leb Nat.eqb] in Hmatch.
      repeat (apply andb_true_iff in Hmatch as [? Hmatch]).
      unfold municipality_pattern. cbn [match_classes match_repeat].
      repeat match goal with
             | H : char_in _ _ = true |- _ => rewrite H; clear H
             end.
      reflexivity.
  - intros (Hs & Hn & Hyear & Hpat).
    destruct (build_ok surname name birthday sex municipality Hs Hn
                ltac:(lia) Hm Hd Hpat) as (code & Hb & _).
    eauto.
Qed.

Lemma build_returns_iff_witness :
  (∃ code, build (lit "Rocca") (lit "Emanuele") rocca_birthday (lit "M")
                 (lit "D969") = Ok code)
  ↔ encodable (lit "Rocca")
    ∧ (lit "Emanuele" = [] ∨ encodable (lit "Emanuele"))
    ∧ 1000 ≤ year rocca_birthday
    ∧ match_classes municipality_pattern (lit "D969") = Some [].
Proof.
  apply build_returns_iff.
  - vm_compute. split; discriminate.
  - vm_compute. split; discriminate.
  - vm_compute. split; discriminate.
  - reflexivity.
Defined.

(** ** Omocodia variants *)

(** X12. On two codes that [isvalid] accepts and that agree except that
    at positions 7, 8, 10, 11 one may hold a digit where the other
    holds its letter alias (the control characters following),
    [get_birthday] has the same outcome: the same string, or the same
    exception. *)
Theorem get_birthday_variants_same_outcome (c1 c2 : str) :
  isvalid (PyStr c1) = Ok true →
  isvalid (PyStr c2) = Ok true →
  omocodia_variants c1 c2 = true →
  get_birthday c1 = get_birthday c2.
Proof.
  intros Hv1 Hv2 Hvar.
  destruct (length_16_inv c1 (isvalid_length _ Hv1))
    as (a0 & a1 & a2 & a3 & a4 & a5 & a6 & a7 & a8 & a9 & a10 & a11 & a12
        & a13 & a14 & a15 & ->).
  destruct (length_16_inv c2 (isvalid_length _ Hv2))
    as (b0 & b1 & b2 & b3 & b4 & b5 & b6 & b7 & b8 & b9 & b10 & b11 & b12
        & b13 & b14 & b15 & ->).
  destruct (variants_date_field _ _ a6 a7 a8 a9 a10 b6 b7 b8 b9 b10 Hvar
              eq_refl eq_refl) as (S6 & S7 & <- & S9 & S10).
  apply same_or_alias_value in S6, S7, S9, S10.
  rewrite !get_birthday_16 by assumption.
  unfold dict_get. rewrite !day_year_charmap_lookup, S6, S7, S9, S10.
  reflexivity.
Qed.

Lemma get_birthday_variants_same_outcome_witness :
  get_birthday (lit "RCCMNL83s18D969H") = get_birthday (lit "RCCMNLU3s1UD969B").
Proof.
  apply get_birthday_variants_same_outcome; vm_compute; reflexivity.
Defined.
